(** * CoinPulse: the coin stats resolution pipeline of [src/index.ts]

    A shallow embedding of [getCoinAddressBySymbol], [getCoinData],
    [getUniswapV3PoolAddress], [errorFrame] and the handlers of [/stats]
    and [/image/:symbol], with the subgraph and the chain as read-only
    oracles and every external call recorded in a trace.

    JavaScript numbers are IEEE 754 binary64 values, taken from
    [SpecFloat] at precision 53 and maximal exponent 1024: [*] and [/]
    round to nearest, ties to even; [Number] of a bigint or of a decimal
    numeral is the nearest value; [x ** 2] is the rounded product
    [x * x].  A [string] is a sequence of code units below 256, each
    the character of that code (ASCII and Latin-1), which covers hex
    addresses and ticker symbols; where a built-in leaves this range,
    as upper case does for three characters, its result is written as a
    list of UTF-16 code units.

    The subgraph and the chain answer as functions of the request: the
    service only reads them. *)

From Stdlib Require Import ZArith Lia List Bool Ascii String.
From Stdlib Require Import Floats.SpecFloat.
Import ListNotations.

Local Open Scope Z_scope.

(* ------------------------------------------------------------------ *)
(** ** Strings: case mapping and the [<] of JavaScript *)

Module JsString.

Local Open Scope N_scope.

(** The code units below 256 that have a lower-case partner: A-Z and the
    Latin-1 capitals from 192 to 222, the multiplication sign apart. *)
Definition is_upper (c : ascii) : bool :=
  ((65 <=? N_of_ascii c) && (N_of_ascii c <=? 90))
  || ((192 <=? N_of_ascii c) && (N_of_ascii c <=? 222) && negb (N_of_ascii c =? 215)).

(** Those that have an upper-case partner below 256: a-z and the Latin-1
    small letters from 224 to 254, the division sign apart. *)
Definition is_lower (c : ascii) : bool :=
  ((97 <=? N_of_ascii c) && (N_of_ascii c <=? 122))
  || ((224 <=? N_of_ascii c) && (N_of_ascii c <=? 254) && negb (N_of_ascii c =? 247)).

Definition lower_char (c : ascii) : ascii :=
  if is_upper c then ascii_of_N (N_of_ascii c + 32) else c.

Fixpoint map_chars (f : ascii -> ascii) (s : string) : string :=
  match s with
  | EmptyString => EmptyString
  | String c r => String (f c) (map_chars f r)
  end.

(** [s.toLowerCase()]. *)
Definition toLowerCase : string -> string := map_chars lower_char.

(** A string as its UTF-16 code units.  Upper case leaves the code
    units below 256: it is written in this form. *)
Definition units : Type := list N.

Fixpoint units_of (s : string) : units :=
  match s with
  | EmptyString => []
  | String c r => N_of_ascii c :: units_of r
  end.

Fixpoint units_eqb (a b : units) : bool :=
  match a, b with
  | [], [] => true
  | x :: a', y :: b' => (x =? y) && units_eqb a' b'
  | _, _ => false
  end.

(** The upper case of one code unit: the partner 32 below; SS for the
    sharp s (223); the Greek capital mu (924) for the micro sign (181);
    the capital y with diaeresis (376) for the small one (255); the code
    unit itself otherwise. *)
Definition upper_units (c : ascii) : units :=
  if is_lower c then [N_of_ascii c - 32]
  else if N_of_ascii c =? 223 then [83; 83]
  else if N_of_ascii c =? 181 then [924]
  else if N_of_ascii c =? 255 then [376]
  else [N_of_ascii c].

(** [s.toUpperCase()]. *)
Fixpoint toUpperCase (s : string) : units :=
  match s with
  | EmptyString => []
  | String c r => upper_units c ++ toUpperCase r
  end.

(** [a < b] on strings: lexicographic on code units. *)
Definition lt (a b : string) : bool := String.ltb a b.

(** Two strings denote the same value up to letter case. *)
Definition same_ci (a b : string) : Prop := toLowerCase a = toLowerCase b.

End JsString.

(* ------------------------------------------------------------------ *)
(** ** Numbers: binary64 *)

Module Number.

Definition prec : Z := 53.
Definition emax : Z := 1024.

Definition number : Type := spec_float.

Definition NaN : number := S754_nan.
Definition zero : number := S754_zero false.

Definition mul : number -> number -> number := SFmul prec emax.
Definition div : number -> number -> number := SFdiv prec emax.

(** [Number(n)] for a bigint [n], and for the decimal numeral of an
    integer: the nearest binary64 value, ties to even. *)
Definition ofZ (n : Z) : number := binary_normalize prec emax n 0 false.

(** The nearest binary64 value to the fraction [p / q] ([0 < q]):
    one division, one rounding. *)
Definition ofRatio (p q : Z) : number :=
  match p with
  | Z0 => S754_zero false
  | Zpos _ =>
      let '(m, e, l) := SFdiv_core_binary prec emax p 0 q 0 in
      binary_round_aux prec emax false m e l
  | Zneg p' =>
      let '(m, e, l) := SFdiv_core_binary prec emax (Zpos p') 0 q 0 in
      binary_round_aux prec emax true m e l
  end.

(** The literals of the source. *)
Definition lit_1e18 : number := ofZ (10 ^ 18).
Definition lit_0_1 : number := ofRatio 1 10.
Definition lit_0 : number := zero.
Definition lit_1 : number := ofZ 1.
Definition lit_2 : number := ofZ 2.

(** [2 ** 192]: a power of two, exact. *)
Definition pow_2_192 : number := ofZ (2 ^ 192).

(** [x ** 2], computed as the correctly rounded product [x * x]. *)
Definition square (x : number) : number := mul x x.

(** [!x] on a number: NaN and both zeros are falsy. *)
Definition falsy (x : number) : bool :=
  match x with
  | S754_nan | S754_zero _ => true
  | _ => false
  end.

(** [x || y] on numbers. *)
Definition or_else (x y : number) : number := if falsy x then y else x.

(** [x === y] on numbers: NaN equals nothing, the two zeros are equal. *)
Definition strict_eq (x y : number) : bool := SFeqb x y.

Definition is_finite (x : number) : bool :=
  match x with
  | S754_zero _ | S754_finite _ _ _ => true
  | _ => false
  end.

(** [fits K E x]: [x] is [+0], or a positive finite number
    [m * 2^e] with [m < 2^(K - e)] and [e <= E]. *)
Definition fits (K E : Z) (x : number) : Prop :=
  match x with
  | S754_zero false => True
  | S754_finite false m e => Zdigits2 (Zpos m) + e <= K /\ e <= E
  | _ => False
  end.

End Number.

(* ------------------------------------------------------------------ *)
(** ** External calls: events, traces and exceptions *)

(** The calls the service makes: GraphQL requests to the subgraph
    ([request(ZORA_SUBGRAPH_URL, query, variables)]) and contract reads on
    the chain ([publicClient.readContract]). *)
Inductive Event : Type :=
| Request_GetCoinBySymbol (symbol : JsString.units)
| Request_GetCoinData (address : string)
| Read_getPool (factory token0 token1 : string) (fee : Z)
| Read_slot0 (address : string)
| Read_liquidity (address : string).

(** A computation that may throw: the calls it made so far, and its
    value unless it threw. *)
Definition Eff (A : Type) : Type := list Event * option A.

Definition ret {A} (a : A) : Eff A := ([], Some a).

Definition bind {A B} (m : Eff A) (k : A -> Eff B) : Eff B :=
  match m with
  | (t, Some a) => let '(t', r) := k a in (t ++ t', r)
  | (t, None) => (t, None)
  end.

(** One external call: logged, then answered by the oracle or rejected. *)
Definition call {A} (ev : Event) (answer : option A) : Eff A := ([ev], answer).

(** [Promise.all([p, q])]: both calls are issued, both must succeed. *)
Definition all2 {A B} (p : Eff A) (q : Eff B) : Eff (A * B) :=
  (fst p ++ fst q,
   match snd p, snd q with
   | Some a, Some b => Some (a, b)
   | _, _ => None
   end).

(** [try { body } catch (error) { console.error(..); return null; }]
    around a body that returns a value or [null]. *)
Definition try_or_null {A} (body : Eff (option A)) : list Event * option A :=
  match body with
  | (t, Some r) => (t, r)
  | (t, None) => (t, None)
  end.

Declare Scope eff_scope.
Delimit Scope eff_scope with eff.
Notation "x <- m ;; k" := (bind m (fun x => k))
  (at level 61, m at next level, right associativity) : eff_scope.
Notation "' pat <- m ;; k" := (bind m (fun x => match x with pat => k end))
  (at level 61, pat pattern, m at next level, right associativity) : eff_scope.

(* ------------------------------------------------------------------ *)
(** ** The data of the service *)

(** What [slot0] of [UNISWAP_V3_POOL_ABI] returns. *)
Record Slot0 : Type := {
  sqrtPriceX96 : Z;
  tick : Z;
  observationIndex : Z;
  observationCardinality : Z;
  observationCardinalityNext : Z;
  feeProtocol : Z;
  unlocked : bool
}.

(** An entry of [coins] in the answer to [GetCoinData].  The code reads
    a field through [Number] only, and a field is given as [Number]
    reads it: as an integer, the integer a decimal numeral or a number
    denotes and 0 for [null]; or as nothing, for a key that is missing. *)
Module Coin.

(** The value of a key in the JSON of an entry: none, [null], or an
    integer, written as a number or as its decimal numeral. *)
Inductive field : Type :=
| Missing
| Null
| Integer (n : Z).

(** What [Number] makes of it: [Number(undefined)] is no number,
    [Number(null)] is 0. *)
Definition read (f : field) : option Z :=
  match f with
  | Missing => None
  | Null => Some 0
  | Integer n => Some n
  end.

Record t : Type := {
  totalSupply : option Z;
  holderCount : option Z
}.

End Coin.

(** The object [getCoinData] returns. *)
Record CoinStats : Type := {
  price : Number.number;
  volume24h : Number.number;
  liquidity : Number.number;
  holderCount : Number.number;
  marketCap : Number.number
}.

(** The subgraph and the chain.  [None] is a rejected promise: a
    transport fault, a malformed answer, a reverted read. *)
Record World : Type := {
  coinsBySymbol : JsString.units -> option (list string);
  coinsByAddress : string -> option (list Coin.t);
  getPool : string -> string -> string -> Z -> option string;
  slot0 : string -> option Slot0;
  poolLiquidity : string -> option Z
}.

Definition UNISWAP_V3_FACTORY_ADDRESS : string :=
  "0x1F98431c8aD98523631AE4a59f267346ea31F984".

Definition WETH_ADDRESS : string :=
  "0x4200000000000000000000000000000000000006".

Definition ZERO_ADDRESS : string :=
  "0x0000000000000000000000000000000000000000".

(** [Number(v)] for a field of a subgraph answer, given as [Coin.read]
    gives it: the nearest number to the integer, which is [+0] for
    [null], and NaN for a missing key. *)
Definition Number_of_field (v : option Z) : Number.number :=
  match v with
  | Some n => Number.ofZ n
  | None => Number.NaN
  end.

(** [Number(formatEther(v))]: [formatEther] writes [v / 10^18] out in
    full, [Number] reads the numeral back. *)
Definition Number_formatEther (v : Z) : Number.number :=
  Number.ofRatio v (10 ^ 18).

(** What the [/image/:symbol] route answers: [c.text(body, status)], or
    the image rendered from the symbol and the stats. *)
Inductive Response : Type :=
| Text (body : string) (status : Z)
| Image (symbol : string) (data : CoinStats).

(* ------------------------------------------------------------------ *)
(** ** The pipeline *)

Section Pipeline.

Variable w : World.

Local Open Scope eff_scope.
Local Open Scope string_scope.

(** Lines 132-135: the request of [getCoinAddressBySymbol]. *)
Definition requestCoinBySymbol (symbol : string) : Eff (list string) :=
  call (Request_GetCoinBySymbol (JsString.toUpperCase symbol))
       (coinsBySymbol w (JsString.toUpperCase symbol)).

(** [getCoinAddressBySymbol], lines 123-141. *)
Definition getCoinAddressBySymbol (symbol : string)
  : list Event * option string :=
  try_or_null (
    data <- requestCoinBySymbol symbol ;;
    ret (match data with
         | address :: _ => Some address
         | [] => None
         end)).

(** The ordering of lines 209-212, for any second address. *)
Definition orderTokens (tokenAddress other : string) : string * string :=
  if JsString.lt (JsString.toLowerCase tokenAddress) (JsString.toLowerCase other)
  then (tokenAddress, other)
  else (other, tokenAddress).

(** [getUniswapV3PoolAddress], lines 204-240. *)
Definition getUniswapV3PoolAddress (tokenAddress : string)
  : list Event * option string :=
  try_or_null (
    let '(token0, token1) := orderTokens tokenAddress WETH_ADDRESS in
    poolAddress <- call (Read_getPool UNISWAP_V3_FACTORY_ADDRESS
                                      ("0x" ++ token0) ("0x" ++ token1) 3000)
                        (getPool w UNISWAP_V3_FACTORY_ADDRESS
                                 ("0x" ++ token0) ("0x" ++ token1) 3000) ;;
    ret (if String.eqb poolAddress ZERO_ADDRESS then None else Some poolAddress)).

(** Lines 181-196 of [getCoinData]: from the values read to the record
    returned. *)
Definition computeStats (sqrtPrice liq : Z) (supply holderCnt : Number.number)
  : CoinStats :=
  let price :=
    Number.mul (Number.div (Number.square (Number.ofZ sqrtPrice)) Number.pow_2_192)
               Number.lit_1e18 in
  let liquidityEth := Number.mul (Number_formatEther liq) price in
  let volume24h := Number.mul liquidityEth Number.lit_0_1 in
  let marketCap := Number.mul price supply in
  {| price := price;
     volume24h := volume24h;
     liquidity := liquidityEth;
     holderCount := holderCnt;
     marketCap := marketCap |}.

(** Line 160: [Number(coinData.coins[0].totalSupply) / 1e18]. *)
Definition totalSupplyOf (coin : Coin.t) : Number.number :=
  Number.div (Number_of_field (Coin.totalSupply coin)) Number.lit_1e18.

(** Line 161: [Number(coinData.coins[0].holderCount) || 0]. *)
Definition holderCountOf (coin : Coin.t) : Number.number :=
  Number.or_else (Number_of_field (Coin.holderCount coin)) Number.lit_0.

(** Lines 155-157: the metadata request of [getCoinData]. *)
Definition requestCoinData (coinAddress : string) : Eff (list Coin.t) :=
  call (Request_GetCoinData (JsString.toLowerCase coinAddress))
       (coinsByAddress w (JsString.toLowerCase coinAddress)).

(** [getCoinData], lines 144-201.  [!poolAddress] at line 165 holds of
    [null] and of the empty string. *)
Definition getCoinData (coinAddress : string)
  : list Event * option CoinStats :=
  try_or_null (
    coinData <- requestCoinData coinAddress ;;
    match coinData with
    | [] => ret None
    | coin :: _ =>
        let supply := totalSupplyOf coin in
        let holderCnt := holderCountOf coin in
        poolAddress <- (let '(t, r) := getUniswapV3PoolAddress coinAddress in (t, Some r)) ;;
        match poolAddress with
        | None => ret None
        | Some poolAddress =>
            if String.eqb poolAddress ""
            then ret None
            else
              '(s0, liq) <- all2 (call (Read_slot0 ("0x" ++ poolAddress))
                                       (slot0 w ("0x" ++ poolAddress)))
                                 (call (Read_liquidity ("0x" ++ poolAddress))
                                       (poolLiquidity w ("0x" ++ poolAddress))) ;;
              ret (Some (computeStats (sqrtPriceX96 s0) liq supply holderCnt))
        end
    end).

(** The [/image/:symbol] route from line 102 on, for the symbol that
    line 101 decoded.  [!coinAddress] holds of [null] and of the empty
    string. *)
Definition imageRoute (symbol : string) : list Event * Response :=
  let '(t1, coinAddress) := getCoinAddressBySymbol symbol in
  match coinAddress with
  | None => (t1, Text "Coin not found" 404)
  | Some coinAddress =>
      if String.eqb coinAddress ""
      then (t1, Text "Coin not found" 404)
      else
        let '(t2, data) := getCoinData coinAddress in
        match data with
        | None => ((t1 ++ t2)%list, Text "Error fetching data" 500)
        | Some data => ((t1 ++ t2)%list, Image symbol data)
        end
  end.

End Pipeline.

(* ------------------------------------------------------------------ *)
(** ** Worlds to run the pipeline in *)

Module Fixture.

Local Open Scope string_scope.

Definition PULSE_ADDRESS : string :=
  "0x9A3bC1d2E4f5061728394A5b6C7d8E9f0A1B2c3D".

Definition POOL_ADDRESS : string :=
  "0x1111111111111111111111111111111111111111".

Definition pulse : Coin.t :=
  {| Coin.totalSupply := Some (2 * 10 ^ 18); Coin.holderCount := Some 42 |}.

Definition slot0_at_price_one : Slot0 :=
  {| sqrtPriceX96 := 2 ^ 96;
     tick := 0;
     observationIndex := 0;
     observationCardinality := 1;
     observationCardinalityNext := 1;
     feeProtocol := 0;
     unlocked := true |}.

(** One coin, PULSE, two whole coins in supply, a pool at price ratio
    one holding five units of liquidity. *)
Definition world : World :=
  {| coinsBySymbol := fun s =>
       if JsString.units_eqb s (JsString.units_of "PULSE") then Some [PULSE_ADDRESS] else Some [];
     coinsByAddress := fun a =>
       if String.eqb a (JsString.toLowerCase PULSE_ADDRESS) then Some [pulse] else Some [];
     getPool := fun _ _ _ _ => Some POOL_ADDRESS;
     slot0 := fun _ => Some slot0_at_price_one;
     poolLiquidity := fun _ => Some (5 * 10 ^ 18) |}.

(** The same, with an empty pool. *)
Definition empty_pool_world : World :=
  {| coinsBySymbol := coinsBySymbol world;
     coinsByAddress := coinsByAddress world;
     getPool := getPool world;
     slot0 := slot0 world;
     poolLiquidity := fun _ => Some 0 |}.

(** The same, with nothing minted. *)
Definition no_supply_world : World :=
  {| coinsBySymbol := coinsBySymbol world;
     coinsByAddress := fun a =>
       if String.eqb a (JsString.toLowerCase PULSE_ADDRESS)
       then Some [{| Coin.totalSupply := Some 0; Coin.holderCount := Some 0 |}]
       else Some [];
     getPool := getPool world;
     slot0 := slot0 world;
     poolLiquidity := poolLiquidity world |}.

(** The factory knows no pool for the pair. *)
Definition no_pool_world : World :=
  {| coinsBySymbol := coinsBySymbol world;
     coinsByAddress := coinsByAddress world;
     getPool := fun _ _ _ _ => Some ZERO_ADDRESS;
     slot0 := slot0 world;
     poolLiquidity := poolLiquidity world |}.

(** The pool exists, the [slot0] read is rejected. *)
Definition chain_error_world : World :=
  {| coinsBySymbol := coinsBySymbol world;
     coinsByAddress := coinsByAddress world;
     getPool := getPool world;
     slot0 := fun _ => None;
     poolLiquidity := poolLiquidity world |}.

(** The metadata request is rejected. *)
Definition upstream_error_world : World :=
  {| coinsBySymbol := coinsBySymbol world;
     coinsByAddress := fun _ => None;
     getPool := getPool world;
     slot0 := slot0 world;
     poolLiquidity := poolLiquidity world |}.

(** The factory answers the empty string. *)
Definition empty_answer_world : World :=
  {| coinsBySymbol := coinsBySymbol world;
     coinsByAddress := coinsByAddress world;
     getPool := fun _ _ _ _ => Some "";
     slot0 := slot0 world;
     poolLiquidity := poolLiquidity world |}.

(** Another deployment: another coin address, another pool, another
    tick, more coins listed; the values the calculation reads are those
    of [world]. *)
Definition OTHER_ADDRESS : string :=
  "0x00000000000000000000000000000000000000Aa".

Definition other_world : World :=
  {| coinsBySymbol := fun _ => Some [OTHER_ADDRESS];
     coinsByAddress := fun _ => Some [pulse; pulse];
     getPool := fun _ _ _ _ => Some "0x2222222222222222222222222222222222222222";
     slot0 := fun _ =>
       Some {| sqrtPriceX96 := 2 ^ 96;
               tick := 887272;
               observationIndex := 7;
               observationCardinality := 8;
               observationCardinalityNext := 8;
               feeProtocol := 4;
               unlocked := false |};
     poolLiquidity := fun _ => Some (5 * 10 ^ 18) |}.

End Fixture.

(** What the ABI promises of the values read: [uint160] and [uint128]. *)
Definition abi_typed (w : World) : Prop :=
  (forall a s, slot0 w a = Some s -> 0 <= sqrtPriceX96 s < 2 ^ 160) /\
  (forall a l, poolLiquidity w a = Some l -> 0 <= l < 2 ^ 128).

(** The [CoinMeta] a run of [getCoinData] works from: the two fields of
    [coins[0]] in the answer to its request, if there is one. *)
Definition coinMetaRead (w : World) (coinAddress : string)
  : option (option Z * option Z) :=
  match coinsByAddress w (JsString.toLowerCase coinAddress) with
  | Some (coin :: _) => Some (Coin.totalSupply coin, Coin.holderCount coin)
  | _ => None
  end.

(** The [PoolState] a run of [getCoinData] works from: [sqrtPriceX96] of
    [slot0] and the liquidity of the pool it located, if the locator
    returned an address that is not empty and both reads succeed. *)
Definition poolStateRead (w : World) (coinAddress : string) : option (Z * Z) :=
  match snd (getUniswapV3PoolAddress w coinAddress) with
  | Some poolAddress =>
      if String.eqb poolAddress ""
      then None
      else
        match slot0 w ("0x" ++ poolAddress), poolLiquidity w ("0x" ++ poolAddress) with
        | Some s0, Some liq => Some (sqrtPriceX96 s0, liq)
        | _, _ => None
        end
  | None => None
  end.

(** The error kinds of the resolution, as the specification names them. *)
Inductive ErrorKind : Type :=
| SymbolNotFound
| PoolNotFound
| ChainReadError
| UpstreamError.


(* ------------------------------------------------------------------ *)
(** ** Text: trimming and percent-escapes *)

Module JsText.

Local Open Scope N_scope.

(** White space and line terminators among the code units below 256:
    TAB, LF, VT, FF, CR, SPACE and NO-BREAK SPACE. *)
Definition is_space (c : ascii) : bool :=
  ((9 <=? N_of_ascii c) && (N_of_ascii c <=? 13))
  || (N_of_ascii c =? 32) || (N_of_ascii c =? 160).

Fixpoint trimStart (s : string) : string :=
  match s with
  | EmptyString => EmptyString
  | String c r => if is_space c then trimStart r else s
  end.

Fixpoint trimEnd (s : string) : string :=
  match s with
  | EmptyString => EmptyString
  | String c r =>
      match trimEnd r with
      | EmptyString => if is_space c then EmptyString else String c EmptyString
      | r' => String c r'
      end
  end.

(** [s.trim()]. *)
Definition trim (s : string) : string := trimEnd (trimStart s).

(** The characters [encodeURIComponent] leaves as they are: letters,
    digits and [- _ . ! ~ * ' ( )]. *)
Definition is_unreserved (c : ascii) : bool :=
  ((48 <=? N_of_ascii c) && (N_of_ascii c <=? 57))
  || ((65 <=? N_of_ascii c) && (N_of_ascii c <=? 90))
  || ((97 <=? N_of_ascii c) && (N_of_ascii c <=? 122))
  || (N_of_ascii c =? 45) || (N_of_ascii c =? 95) || (N_of_ascii c =? 46)
  || (N_of_ascii c =? 33) || (N_of_ascii c =? 126) || (N_of_ascii c =? 42)
  || (N_of_ascii c =? 39) || (N_of_ascii c =? 40) || (N_of_ascii c =? 41).

Definition hex_digit (n : N) : ascii :=
  if n <? 10 then ascii_of_N (48 + n) else ascii_of_N (55 + n).

(** An octet as a percent sign and two upper-case hexadecimal digits. *)
Definition percent (b : N) : string :=
  String "%" (String (hex_digit (b / 16)) (String (hex_digit (b mod 16)) EmptyString)).

(** One code unit: itself, or the octets of its UTF-8 form, one below
    128 and two from 128 to 255. *)
Definition encode_char (c : ascii) : string :=
  if is_unreserved c then String c EmptyString
  else if N_of_ascii c <? 128 then percent (N_of_ascii c)
  else (percent (192 + N_of_ascii c / 64) ++ percent (128 + N_of_ascii c mod 64))%string.

(** [encodeURIComponent(s)]. *)
Fixpoint encodeURIComponent (s : string) : string :=
  match s with
  | EmptyString => EmptyString
  | String c r => (encode_char c ++ encodeURIComponent r)%string
  end.

(** What [decodeURIComponent] does: it returns a string, or throws a
    URIError.  A returned string that holds a code unit above 255 is not
    a [string] here and is only recorded as such. *)
Inductive Decoded : Type :=
| Decoded_string (s : string)
| Decoded_beyond
| URIError.

Definition hex_value (c : ascii) : option N :=
  if (48 <=? N_of_ascii c) && (N_of_ascii c <=? 57) then Some (N_of_ascii c - 48)
  else if (65 <=? N_of_ascii c) && (N_of_ascii c <=? 70) then Some (N_of_ascii c - 55)
  else if (97 <=? N_of_ascii c) && (N_of_ascii c <=? 102) then Some (N_of_ascii c - 87)
  else None.

(** The octet two hexadecimal digits denote. *)
Definition octet (h l : ascii) : option N :=
  match hex_value h, hex_value l with
  | Some a, Some b => Some (16 * a + b)
  | _, _ => None
  end.

(** A further escape of a multi-octet sequence: a percent sign and an
    octet of the form 10xxxxxx. *)
Definition continuation (p h l : ascii) : option N :=
  if Ascii.eqb p "%" then
    match octet h l with
    | Some b => if (128 <=? b) && (b <? 192) then Some b else None
    | None => None
    end
  else None.

(** The code unit [c] before what the rest decodes to. *)
Definition push (c : ascii) (rest : Decoded) : Decoded :=
  match rest with
  | Decoded_string s => Decoded_string (String c s)
  | other => other
  end.

(** The code point [v] before what the rest decodes to. *)
Definition push_code_point (v : N) (rest : Decoded) : Decoded :=
  if v <? 256 then push (ascii_of_N v) rest
  else match rest with
       | URIError => URIError
       | _ => Decoded_beyond
       end.

(** Two, three and four octets of UTF-8: overlong forms, surrogates and
    values above 0x10FFFF are errors. *)
Definition utf8_2 (b c1 : N) (rest : Decoded) : Decoded :=
  let v := (b mod 32) * 64 + c1 mod 64 in
  if v <? 128 then URIError else push_code_point v rest.

Definition utf8_3 (b c1 c2 : N) (rest : Decoded) : Decoded :=
  let v := (b mod 16) * 4096 + (c1 mod 64) * 64 + c2 mod 64 in
  if (v <? 2048) || ((55296 <=? v) && (v <=? 57343)) then URIError
  else push_code_point v rest.

Definition utf8_4 (b c1 c2 c3 : N) (rest : Decoded) : Decoded :=
  let v := (b mod 8) * 262144 + (c1 mod 64) * 4096 + (c2 mod 64) * 64 + c3 mod 64 in
  if (v <? 65536) || (1114111 <? v) then URIError
  else push_code_point v rest.

(** [decodeURIComponent(s)]. *)
Fixpoint decodeURIComponent (s : string) : Decoded :=
  match s with
  | EmptyString => Decoded_string EmptyString
  | String c r =>
      if negb (Ascii.eqb c "%") then push c (decodeURIComponent r)
      else
        match r with
        | String h (String l r1) =>
            match octet h l with
            | None => URIError
            | Some b =>
                if b <? 128 then push (ascii_of_N b) (decodeURIComponent r1)
                else if b <? 192 then URIError
                else if b <? 224 then
                  match r1 with
                  | String p1 (String h1 (String l1 r2)) =>
                      match continuation p1 h1 l1 with
                      | Some c1 => utf8_2 b c1 (decodeURIComponent r2)
                      | None => URIError
                      end
                  | _ => URIError
                  end
                else if b <? 240 then
                  match r1 with
                  | String p1 (String h1 (String l1
                      (String p2 (String h2 (String l2 r3))))) =>
                      match continuation p1 h1 l1, continuation p2 h2 l2 with
                      | Some c1, Some c2 => utf8_3 b c1 c2 (decodeURIComponent r3)
                      | _, _ => URIError
                      end
                  | _ => URIError
                  end
                else if b <? 248 then
                  match r1 with
                  | String p1 (String h1 (String l1
                      (String p2 (String h2 (String l2
                        (String p3 (String h3 (String l3 r4)))))))) =>
                      match continuation p1 h1 l1, continuation p2 h2 l2,
                            continuation p3 h3 l3 with
                      | Some c1, Some c2, Some c3 =>
                          utf8_4 b c1 c2 c3 (decodeURIComponent r4)
                      | _, _, _ => URIError
                      end
                  | _ => URIError
                  end
                else URIError
            end
        | _ => URIError
        end
  end.

(** How often the character [c] occurs in [s]. *)
Fixpoint count_char (c : ascii) (s : string) : nat :=
  match s with
  | EmptyString => O
  | String x r => if Ascii.eqb c x then S (count_char c r) else count_char c r
  end.

(** Every character of [s] satisfies [p]. *)
Fixpoint all_chars (p : ascii -> bool) (s : string) : bool :=
  match s with
  | EmptyString => true
  | String x r => p x && all_chars p r
  end.

(** The string begins, or ends, with white space. *)
Definition starts_with_space (s : string) : bool :=
  match s with
  | EmptyString => false
  | String c _ => is_space c
  end.

Fixpoint ends_with_space (s : string) : bool :=
  match s with
  | EmptyString => false
  | String c EmptyString => is_space c
  | String _ r => ends_with_space r
  end.

(** The characters [encodeURIComponent] writes: the unreserved ones and
    the percent sign. *)
Definition in_alphabet (c : ascii) : bool := is_unreserved c || Ascii.eqb c "%".

End JsText.

(* ------------------------------------------------------------------ *)
(** ** The frame of the [/stats] route *)

Section Frames.

Local Open Scope string_scope.

Definition nl : string := String "010" EmptyString.
Definition dq : string := String "034" EmptyString.

(** [errorFrame], lines 254-269. *)
Definition errorFrame (baseUrl message : string) : string :=
  let imageUrl :=
    baseUrl ++ "/error-image?message=" ++ JsText.encodeURIComponent message in
  nl ++
  "    <html>" ++ nl ++
  "      <head>" ++ nl ++
  "        <meta property=" ++ dq ++ "og:image" ++ dq ++ " content=" ++ dq ++ imageUrl ++ dq ++ " />" ++ nl ++
  "        <meta property=" ++ dq ++ "fc:frame" ++ dq ++ " content=" ++ dq ++ "vNext" ++ dq ++ " />" ++ nl ++
  "        <meta property=" ++ dq ++ "fc:frame:image" ++ dq ++ " content=" ++ dq ++ imageUrl ++ dq ++ " />" ++ nl ++
  "        <meta property=" ++ dq ++ "fc:frame:button:1" ++ dq ++ " content=" ++ dq ++ "Try Again" ++ dq ++ " />" ++ nl ++
  "        <meta property=" ++ dq ++ "fc:frame:post_url" ++ dq ++ " content=" ++ dq ++ baseUrl ++ dq ++ " />" ++ nl ++
  "      </head>" ++ nl ++
  "    </html" ++ nl ++
  "  ".

(** The document of lines 86-96. *)
Definition statsFrame (url imageUrl : string) : string :=
  nl ++
  "    <html>" ++ nl ++
  "      <head>" ++ nl ++
  "        <meta property=" ++ dq ++ "og:image" ++ dq ++ " content=" ++ dq ++ imageUrl ++ dq ++ " />" ++ nl ++
  "        <meta property=" ++ dq ++ "fc:frame" ++ dq ++ " content=" ++ dq ++ "vNext" ++ dq ++ " />" ++ nl ++
  "        <meta property=" ++ dq ++ "fc:frame:image" ++ dq ++ " content=" ++ dq ++ imageUrl ++ dq ++ " />" ++ nl ++
  "        <meta property=" ++ dq ++ "fc:frame:button:1" ++ dq ++ " content=" ++ dq ++ "Back" ++ dq ++ " />" ++ nl ++
  "        <meta property=" ++ dq ++ "fc:frame:post_url" ++ dq ++ " content=" ++ dq ++ url ++ dq ++ " />" ++ nl ++
  "      </head>" ++ nl ++
  "    </html>" ++ nl ++
  "  ".

(** What line 75 reads off the body of a frame action when it does not
    throw: the input text, if there is one. *)
Record UntrustedData : Type := { inputText : option string }.
Record Body : Type := { untrustedData : option UntrustedData }.

(** [c.html(body, status)]. *)
Inductive HtmlResponse : Type :=
| Html (body : string) (status : Z).

Definition html_body (r : HtmlResponse) : string := let '(Html b _) := r in b.
Definition html_status (r : HtmlResponse) : Z := let '(Html _ s) := r in s.

(** Line 75: [body.untrustedData?.inputText?.trim()]. *)
Definition inputSymbol (body : Body) : option string :=
  match untrustedData body with
  | Some u =>
      match inputText u with
      | Some text => Some (JsText.trim text)
      | None => None
      end
  | None => None
  end.

(** A JSON value; an object is given by the value of each of its keys. *)
Unset Elimination Schemes.
Inductive Json : Type :=
| JNull
| JBool (b : bool)
| JNumber (x : Number.number)
| JString (s : string)
| JArray (items : list Json)
| JObject (get : string -> option Json).
Set Elimination Schemes.

(** [v.key] for a value that is not [null] and a key that no prototype
    defines: the value of the key in an object, [undefined] in anything
    else. *)
Definition member (v : Json) (key : string) : option Json :=
  match v with
  | JObject get => get key
  | _ => None
  end.

(** Line 75 on the parsed body, up to the call of [trim]: reading
    [untrustedData] off [null] throws; [?.] stops at [undefined] and
    [null]; [trim] is a function on a string only, so that calling it on
    any other value throws.  [None] is the exception. *)
Definition typed_body (body : Json) : option Body :=
  match body with
  | JNull => None
  | _ =>
      match member body "untrustedData" with
      | None | Some JNull => Some {| untrustedData := None |}
      | Some u =>
          match member u "inputText" with
          | None | Some JNull => Some {| untrustedData := Some {| inputText := None |} |}
          | Some (JString text) =>
              Some {| untrustedData := Some {| inputText := Some text |} |}
          | Some _ => None
          end
      end
  end.

(** The body carries no text, or text of white space only. *)
Definition is_blank (body : Body) : bool :=
  match untrustedData body with
  | Some u =>
      match inputText u with
      | Some text => JsText.all_chars JsText.is_space text
      | None => true
      end
  | None => true
  end.

(** The body whose input text is [text]. *)
Definition body_of_text (text : string) : Body :=
  {| untrustedData := Some {| inputText := Some text |} |}.

(** The [/stats] route from line 75 on, for the request URL and a body
    line 75 can read. *)
Definition statsRoute (w : World) (url : string) (body : Body)
  : list Event * HtmlResponse :=
  match inputSymbol body with
  | None => ([], Html (errorFrame url "No symbol provided") 400)
  | Some symbol =>
      if String.eqb symbol ""
      then ([], Html (errorFrame url "No symbol provided") 400)
      else
        let '(t, coinAddress) := getCoinAddressBySymbol w symbol in
        let notFound :=
          Html (errorFrame url ("Coin " ++ dq ++ symbol ++ dq ++ " not found")) 404 in
        match coinAddress with
        | None => (t, notFound)
        | Some coinAddress =>
            if String.eqb coinAddress ""
            then (t, notFound)
            else
              let imageUrl := url ++ "/image/" ++ JsText.encodeURIComponent symbol in
              (t, Html (statsFrame url imageUrl) 200)
        end
  end.

(** The handler of [/stats], lines 73-97, for the request URL and the
    body of the request: [None] for the body is a body that is not JSON,
    for which [c.req.json()] is rejected; [None] for the result is the
    handler throwing, before any call is made. *)
Definition statsHandler (w : World) (url : string) (body : option Json)
  : option (list Event * HtmlResponse) :=
  match body with
  | None => None
  | Some json =>
      match typed_body json with
      | None => None
      | Some body => Some (statsRoute w url body)
      end
  end.

(** How the handler of [/image/:symbol] ends: with an answer, after the
    calls it made; with the URIError of line 101, before any call; or
    past line 101 with a symbol that holds a code unit above 255, which
    is not followed here. *)
Inductive ImageOutcome : Type :=
| Image_run (run : list Event * Response)
| Image_thrown
| Image_beyond.

(** The handler of [/image/:symbol], lines 100-120, for the value of
    [c.req.param("symbol")]. *)
Definition imageHandler (w : World) (param : string) : ImageOutcome :=
  match JsText.decodeURIComponent param with
  | JsText.Decoded_string symbol => Image_run (imageRoute w symbol)
  | JsText.URIError => Image_thrown
  | JsText.Decoded_beyond => Image_beyond
  end.

End Frames.

(** [x] is finite and not negative: [+0] or a positive finite number. *)
Definition is_nonneg_finite (x : Number.number) : bool :=
  match x with
  | S754_zero false | S754_finite false _ _ => true
  | _ => false
  end.

(* ------------------------------------------------------------------ *)
(** ** Binary digits and right shifts *)

Module Digits.

Lemma digits2_pos_size (p : positive) : digits2_pos p = Pos.size p.
Proof. induction p; simpl; congruence. Qed.

Lemma digits_nonneg (m : Z) : 0 <= Zdigits2 m.
Proof. destruct m; simpl; lia. Qed.

Lemma digits_upper (m : Z) : 0 <= m -> m < 2 ^ Zdigits2 m.
Proof.
  destruct m as [|p|p]; intros H; try lia.
  - reflexivity.
  - unfold Zdigits2. rewrite digits2_pos_size.
    pose proof (Pos.size_gt p) as G.
    apply Pos2Z.pos_lt_pos in G. now rewrite Pos2Z.inj_pow in G.
Qed.

Lemma digits_lower (m : Z) : 0 < m -> 2 ^ (Zdigits2 m - 1) <= m.
Proof.
  destruct m as [|p|p]; intros H; try lia.
  unfold Zdigits2. rewrite digits2_pos_size.
  pose proof (Pos.size_le p) as G.
  apply Pos2Z.pos_le_pos in G. rewrite Pos2Z.inj_pow in G.
  rewrite (Pos2Z.inj_xO p) in G.
  replace (Z.pos (Pos.size p)) with (Z.succ (Z.pos (Pos.size p) - 1)) in G at 1 by lia.
  rewrite Z.pow_succ_r in G by lia. lia.
Qed.

Lemma digits_le_of_lt_pow (m k : Z) : 0 <= k -> 0 <= m -> m < 2 ^ k -> Zdigits2 m <= k.
Proof.
  intros Hk Hm Hlt.
  destruct (Z.eq_dec m 0) as [->|Hz]; [simpl; lia|].
  pose proof (digits_lower m ltac:(lia)) as L.
  pose proof (digits_nonneg m) as N.
  destruct (Z_le_gt_dec (Zdigits2 m) k) as [|G]; [assumption|exfalso].
  assert (2 ^ k <= 2 ^ (Zdigits2 m - 1)) by (apply Z.pow_le_mono_r; lia).
  lia.
Qed.

Lemma digits_succ (m : Z) : 0 <= m -> Zdigits2 (m + 1) <= Zdigits2 m + 1.
Proof.
  intros Hm. pose proof (digits_nonneg m) as N. pose proof (digits_upper m Hm) as U.
  apply digits_le_of_lt_pow; try lia.
  rewrite Z.pow_add_r by lia. change (2 ^ 1) with 2. lia.
Qed.

Lemma digits_mul (a b : Z) : 0 <= a -> 0 <= b -> Zdigits2 (a * b) <= Zdigits2 a + Zdigits2 b.
Proof.
  intros Ha Hb.
  pose proof (digits_nonneg a). pose proof (digits_nonneg b).
  pose proof (digits_upper a Ha). pose proof (digits_upper b Hb).
  apply digits_le_of_lt_pow; try nia.
  rewrite Z.pow_add_r by lia. nia.
Qed.

Lemma digits_div_pow2 (m n : Z) :
  0 <= m -> 0 <= n -> Zdigits2 (m / 2 ^ n) <= Z.max 0 (Zdigits2 m - n).
Proof.
  intros Hm Hn.
  pose proof (digits_nonneg m) as N. pose proof (digits_upper m Hm) as U.
  assert (P : 0 < 2 ^ n) by (apply Z.pow_pos_nonneg; lia).
  assert (Q : 0 <= m / 2 ^ n) by (apply Z.div_pos; lia).
  destruct (Z_le_gt_dec n (Zdigits2 m)) as [L|G].
  - apply digits_le_of_lt_pow; try lia.
    rewrite Z.max_r by lia.
    apply Z.div_lt_upper_bound; [lia|].
    rewrite <- Z.pow_add_r by lia.
    now replace (n + (Zdigits2 m - n)) with (Zdigits2 m) by lia.
  - assert (2 ^ Zdigits2 m <= 2 ^ n) by (apply Z.pow_le_mono_r; lia).
    rewrite Z.div_small by lia. simpl. lia.
Qed.

Lemma digits_quot (a b s : Z) :
  0 <= a -> 0 < b -> 0 <= s ->
  Zdigits2 (a * 2 ^ s / b) <= Z.max 0 (Zdigits2 a + s - Zdigits2 b + 1).
Proof.
  intros Ha Hb Hs.
  pose proof (digits_nonneg a) as Na. pose proof (digits_nonneg b) as Nb.
  pose proof (digits_upper a Ha) as Ua. pose proof (digits_lower b Hb) as Lb.
  assert (Ps : 0 < 2 ^ s) by (apply Z.pow_pos_nonneg; lia).
  assert (Db : 1 <= Zdigits2 b) by (destruct b; simpl in *; lia).
  assert (Pb : 0 < 2 ^ (Zdigits2 b - 1)) by (apply Z.pow_pos_nonneg; lia).
  assert (Q : 0 <= a * 2 ^ s / b) by (apply Z.div_pos; nia).
  assert (T : a * 2 ^ s < 2 ^ (Zdigits2 a + s)) by (rewrite Z.pow_add_r by lia; nia).
  destruct (Z_le_gt_dec (Zdigits2 b - 1) (Zdigits2 a + s)) as [L|G].
  - apply digits_le_of_lt_pow; try lia.
    rewrite Z.max_r by lia.
    apply Z.div_lt_upper_bound; [lia|].
    assert (E : 2 ^ (Zdigits2 a + s) =
                2 ^ (Zdigits2 b - 1) * 2 ^ (Zdigits2 a + s - Zdigits2 b + 1)).
    { rewrite <- Z.pow_add_r by lia. f_equal. lia. }
    assert (0 < 2 ^ (Zdigits2 a + s - Zdigits2 b + 1)) by (apply Z.pow_pos_nonneg; lia).
    nia.
  - assert (2 ^ (Zdigits2 a + s) <= 2 ^ (Zdigits2 b - 1)) by (apply Z.pow_le_mono_r; lia).
    rewrite Z.div_small by lia. simpl. lia.
Qed.

End Digits.

(* ------------------------------------------------------------------ *)
(** ** Rounding to binary64 stays in range *)

Module Rounding.

Import Number.

Lemma fits_finite K E x : fits K E x -> is_finite x = true.
Proof. destruct x as [[]|[]| |[] m e]; simpl; intros H; try contradiction; reflexivity. Qed.

Lemma fexp_eq (x : Z) : fexp prec emax x = Z.max (x - 53) (-1074).
Proof. reflexivity. Qed.

Lemma shr_1_m (r : shr_record) : 0 <= shr_m r -> shr_m (shr_1 r) = shr_m r / 2.
Proof.
  destruct r as [m rb sb]; cbn [shr_m]; intros H.
  destruct m as [|[q|q|]|q]; cbn [shr_1 shr_m]; try lia; try reflexivity.
  - rewrite (Pos2Z.inj_xI q). apply Z.div_unique with (r := 1); lia.
  - rewrite (Pos2Z.inj_xO q). apply Z.div_unique with (r := 0); lia.
Qed.

Lemma iter_shr_m (p : positive) :
  forall r, 0 <= shr_m r -> shr_m (iter_pos shr_1 p r) = shr_m r / 2 ^ Zpos p.
Proof.
  assert (P : forall n, 0 < 2 ^ Zpos n) by (intros n; apply Z.pow_pos_nonneg; lia).
  induction p as [p IH|p IH|]; intros r H; cbn [iter_pos].
  - assert (H1 : 0 <= shr_m (shr_1 r)) by (rewrite shr_1_m by lia; apply Z.div_pos; lia).
    assert (H2 : 0 <= shr_m (iter_pos shr_1 p (shr_1 r)))
      by (rewrite IH by lia; apply Z.div_pos; [lia|apply P]).
    rewrite IH, IH, shr_1_m by assumption.
    pose proof (P p).
    rewrite !Z.div_div by lia.
    f_equal. rewrite (Pos2Z.inj_xI p).
    replace (2 * Z.pos p + 1) with (1 + Z.pos p + Z.pos p) by lia.
    rewrite !Z.pow_add_r by lia. change (2 ^ 1) with 2. lia.
  - assert (H2 : 0 <= shr_m (iter_pos shr_1 p r))
      by (rewrite IH by lia; apply Z.div_pos; [lia|apply P]).
    rewrite IH, IH by assumption.
    pose proof (P p).
    rewrite !Z.div_div by lia.
    f_equal. rewrite (Pos2Z.inj_xO p).
    replace (2 * Z.pos p) with (Z.pos p + Z.pos p) by lia.
    now rewrite !Z.pow_add_r by lia.
  - rewrite shr_1_m by assumption. reflexivity.
Qed.

Lemma shr_record_of_loc_m (m : Z) (l : location) : shr_m (shr_record_of_loc m l) = m.
Proof. destruct l as [|[]]; reflexivity. Qed.

(** One alignment step: the mantissa is divided by a power of two and
    the exponent raised to the one the format asks for. *)
Lemma shr_fexp_spec (m e : Z) (l : location) :
  0 <= m ->
  forall r e', shr_fexp prec emax m e l = (r, e') ->
  0 <= shr_m r /\
  e' = Z.max e (Z.max (Zdigits2 m + e - 53) (-1074)) /\
  Zdigits2 (shr_m r) <= Z.max 0 (Zdigits2 m - (e' - e)).
Proof.
  intros Hm r e'. unfold shr_fexp, shr. rewrite fexp_eq.
  pose proof (Digits.digits_nonneg m) as N.
  destruct (Z.max (Zdigits2 m + e - 53) (-1074) - e) as [|n|n] eqn:En;
    intros [= <- <-]; rewrite ?iter_shr_m; rewrite ?shr_record_of_loc_m; try lia.
  assert (P : 0 < 2 ^ Zpos n) by (apply Z.pow_pos_nonneg; lia).
  split; [apply Z.div_pos; lia|]. split; [lia|].
  pose proof (Digits.digits_div_pow2 m (Zpos n) Hm ltac:(lia)). lia.
Qed.

Lemma round_nearest_even_spec (m : Z) (l : location) :
  0 <= m ->
  0 <= round_nearest_even m l /\ Zdigits2 (round_nearest_even m l) <= Zdigits2 m + 1.
Proof.
  intros Hm. pose proof (Digits.digits_succ m Hm) as S.
  destruct l as [|[]]; cbn [round_nearest_even]; try destruct (Z.even m); lia.
Qed.

(** Rounding a non-negative [m * 2^e] below [2^1023]. *)
Lemma round_fits (m e : Z) (l : location) (K E K' E' : Z) :
  0 <= m -> Zdigits2 m + e <= K -> e <= E ->
  K <= 1023 -> E <= 971 ->
  Z.max (Z.max E K) (-1074) + 1 <= K' -> Z.max (Z.max E (K - 52)) (-1074) <= E' ->
  fits K' E' (binary_round_aux prec emax false m e l).
Proof.
  intros Hm HK HE HK1 HE1 HK' HE'.
  unfold binary_round_aux.
  destruct (shr_fexp prec emax m e l) as [r1 e1] eqn:S1.
  destruct (shr_fexp_spec m e l Hm r1 e1 S1) as (N1 & X1 & D1).
  destruct (round_nearest_even_spec (shr_m r1) (loc_of_shr_record r1) N1) as (N2 & D2).
  set (m2 := round_nearest_even (shr_m r1) (loc_of_shr_record r1)) in *.
  destruct (shr_fexp prec emax m2 e1 loc_Exact) as [r3 e3] eqn:S3.
  destruct (shr_fexp_spec m2 e1 loc_Exact N2 r3 e3 S3) as (N3 & X3 & D3).
  pose proof (Digits.digits_nonneg m) as G0. pose proof (Digits.digits_nonneg (shr_m r1)) as G1.
  pose proof (Digits.digits_nonneg m2) as G2.
  destruct (shr_m r3) as [|q|q] eqn:M3; [exact I| |lia].
  assert (L : (e3 <=? emax - prec) = true) by (apply Z.leb_le; unfold emax, prec; lia).
  rewrite L. cbn [fits]. lia.
Qed.

Lemma mul_fits (x y : number) (K1 E1 K2 E2 K' E' : Z) :
  fits K1 E1 x -> fits K2 E2 y ->
  K1 + K2 <= 1023 -> E1 + E2 <= 971 ->
  Z.max (Z.max (E1 + E2) (K1 + K2)) (-1074) + 1 <= K' ->
  Z.max (Z.max (E1 + E2) (K1 + K2 - 52)) (-1074) <= E' ->
  fits K' E' (mul x y).
Proof.
  intros Hx Hy HK HE HK' HE'.
  destruct x as [[]|[]| |[] mx ex]; cbn [fits] in Hx; try contradiction;
    destruct y as [[]|[]| |[] my ey]; cbn [fits] in Hy; try contradiction;
    try exact I.
  unfold mul. cbn [SFmul xorb].
  apply round_fits with (K := K1 + K2) (E := E1 + E2); try lia.
  rewrite Pos2Z.inj_mul.
  pose proof (Digits.digits_mul (Zpos mx) (Zpos my) ltac:(lia) ltac:(lia)). lia.
Qed.

(** The quotient [SFdiv] and [ofRatio] hand to the rounding. *)
Lemma div_core_spec (m1 e1 m2 e2 : Z) :
  0 <= m1 -> 0 < m2 ->
  forall q e' l, SFdiv_core_binary prec emax m1 e1 m2 e2 = (q, e', l) ->
  0 <= q /\ e' <= e1 - e2 /\
  Zdigits2 q + e' <= Z.max e' (Zdigits2 m1 + e1 - (Zdigits2 m2 + e2) + 1).
Proof.
  intros H1 H2 q e' l. unfold SFdiv_core_binary. rewrite fexp_eq.
  set (e0 := Z.min (Z.max (Zdigits2 m1 + e1 - (Zdigits2 m2 + e2) - 53) (-1074)) (e1 - e2)).
  set (s := e1 - e2 - e0).
  assert (Hs : 0 <= s) by (unfold s, e0; lia).
  set (m' := match s with Z.pos _ => Z.shiftl m1 s | Z0 => m1 | Z.neg _ => 0 end).
  assert (Hm' : m' = m1 * 2 ^ s).
  { unfold m'. destruct s as [|n|n] eqn:Es; [simpl; lia| |lia].
    now rewrite Z.shiftl_mul_pow2 by lia. }
  destruct (Z.div_eucl m' m2) as [q0 r0] eqn:Q.
  assert (Hq : q0 = m' / m2) by (unfold Z.div; now rewrite Q).
  intros [= <- <- _].
  pose proof (Digits.digits_quot m1 m2 s H1 H2 Hs) as D.
  rewrite <- Hm', <- Hq in D.
  split; [rewrite Hq, Hm'; apply Z.div_pos; [|lia];
          apply Z.mul_nonneg_nonneg; [lia|apply Z.pow_nonneg; lia]|].
  unfold s, e0 in *. lia.
Qed.

Lemma div_fits (x : number) (my : positive) (ey : Z) (K E Kq Eq K' E' : Z) :
  fits K E x ->
  E - ey <= Eq -> K - (Zdigits2 (Zpos my) + ey) + 1 <= Kq -> Eq <= Kq ->
  Kq <= 1023 -> Eq <= 971 ->
  Z.max Kq (-1074) + 1 <= K' -> Z.max (Z.max Eq (Kq - 52)) (-1074) <= E' ->
  fits K' E' (div x (S754_finite false my ey)).
Proof.
  intros Hx HEq HKq Hle HK HE HK' HE'.
  destruct x as [[]|[]| |[] mx ex]; cbn [fits] in Hx; try contradiction;
    [exact I|].
  unfold div. cbn [SFdiv xorb].
  destruct (SFdiv_core_binary prec emax (Z.pos mx) ex (Z.pos my) ey)
    as [[q e'] l] eqn:C.
  destruct (div_core_spec (Z.pos mx) ex (Z.pos my) ey ltac:(lia) ltac:(lia) q e' l C) as (Nq & Xe & Dq).
  apply round_fits with (K := Kq) (E := Eq); lia.
Qed.

Lemma digits_iter_xO (m d : positive) :
  digits2_pos (Pos.iter xO m d) = (digits2_pos m + d)%positive.
Proof.
  induction d as [|d IH] using Pos.peano_ind.
  - cbn. lia.
  - rewrite Pos.iter_succ. cbn [digits2_pos]. rewrite IH. lia.
Qed.

Lemma shl_align_spec (mx : positive) (ex ex' : Z) :
  forall mz ez, shl_align mx ex ex' = (mz, ez) ->
  ez <= ex /\ Zdigits2 (Zpos mz) + ez = Zdigits2 (Zpos mx) + ex.
Proof.
  intros mz ez. unfold shl_align.
  destruct (ex' - ex) as [|d|d] eqn:Ed; intros [= <- <-]; try lia.
  cbn [Zdigits2]. rewrite digits_iter_xO. lia.
Qed.

Lemma ofZ_fits (n k K' E' : Z) :
  0 <= n -> n < 2 ^ k -> 0 <= k <= 1023 ->
  k + 1 <= K' -> Z.max 0 (k - 52) <= E' ->
  fits K' E' (ofZ n).
Proof.
  intros Hn Hlt Hk HK' HE'.
  destruct n as [|p|p]; [exact I| |lia].
  unfold ofZ, binary_normalize, binary_round.
  destruct (shl_align p 0 (fexp prec emax (Z.pos (digits2_pos p) + 0))) as [mz ez] eqn:A.
  destruct (shl_align_spec _ _ _ _ _ A) as (Le & Eq).
  pose proof (Digits.digits_le_of_lt_pow (Zpos p) k ltac:(lia) ltac:(lia) Hlt) as D.
  apply round_fits with (K := k) (E := 0); lia.
Qed.

Lemma ofRatio_fits (p q Kq K' E' : Z) :
  0 <= p -> 0 < q ->
  0 <= Kq <= 1023 -> Zdigits2 p - Zdigits2 q + 1 <= Kq ->
  Kq + 1 <= K' -> Z.max 0 (Kq - 52) <= E' ->
  fits K' E' (ofRatio p q).
Proof.
  intros Hp Hq HKq HD HK' HE'.
  destruct p as [|n|n]; [exact I| |lia].
  unfold ofRatio.
  destruct (SFdiv_core_binary prec emax (Z.pos n) 0 q 0) as [[m e] l] eqn:C.
  destruct (div_core_spec _ _ _ _ Hp Hq m e l C) as (Nm & Xe & Dm).
  apply round_fits with (K := Kq) (E := 0); lia.
Qed.

(** Structural facts of the product. *)
Lemma mul_comm (x y : number) : mul x y = mul y x.
Proof.
  unfold mul.
  destruct x as [sx|sx| |sx mx ex], y as [sy|sy| |sy my ey]; cbn [SFmul];
    try reflexivity; try (now rewrite xorb_comm).
  now rewrite xorb_comm, Pos.mul_comm, Z.add_comm.
Qed.

Lemma mul_zero_l (x : number) K E : fits K E x -> mul zero x = zero.
Proof.
  destruct x as [[]|[]| |[] m e]; cbn [fits]; intros H; try contradiction; reflexivity.
Qed.

Lemma mul_zero_r (x : number) K E : fits K E x -> mul x zero = zero.
Proof. intros H. rewrite mul_comm. now apply mul_zero_l with K E. Qed.

Lemma strict_eq_refl (x : number) : x <> NaN -> strict_eq x x = true.
Proof.
  unfold strict_eq, SFeqb, NaN.
  destruct x as [s|[]| |[] m e]; cbn [SFcompare]; intros H; try reflexivity;
    try congruence;
    now rewrite Z.compare_refl, Pos.compare_cont_refl.
Qed.

End Rounding.


(* ------------------------------------------------------------------ *)
(** ** Facts about strings *)

Module JsStringFacts.

Import JsString.




Lemma upper_units_nonempty (c : ascii) : upper_units c <> [].
Proof. destruct c as [[] [] [] [] [] [] [] []]; discriminate. Qed.

Lemma upper_empty (s : string) : toUpperCase s = [] <-> s = EmptyString.
Proof.
  destruct s as [|c r]; cbn; split; try congruence.
  intros H. apply app_eq_nil in H. destruct H as [H _].
  now apply upper_units_nonempty in H.
Qed.


End JsStringFacts.

(* ------------------------------------------------------------------ *)
(** ** How the pipeline runs *)

Section Runs.

Variable w : World.

Local Open Scope string_scope.

(** The pool locator makes one read and maps the zero address to
    [null]. *)
Lemma getUniswapV3PoolAddress_run (tokenAddress : string) :
  getUniswapV3PoolAddress w tokenAddress =
  let '(token0, token1) := orderTokens tokenAddress WETH_ADDRESS in
  ([Read_getPool UNISWAP_V3_FACTORY_ADDRESS ("0x" ++ token0) ("0x" ++ token1) 3000],
   match getPool w UNISWAP_V3_FACTORY_ADDRESS ("0x" ++ token0) ("0x" ++ token1) 3000 with
   | Some poolAddress =>
       if String.eqb poolAddress ZERO_ADDRESS then None else Some poolAddress
   | None => None
   end).
Proof.
  unfold getUniswapV3PoolAddress.
  destruct (orderTokens tokenAddress WETH_ADDRESS) as [token0 token1].
  unfold bind, call, ret, try_or_null.
  destruct (getPool w UNISWAP_V3_FACTORY_ADDRESS ("0x" ++ token0) ("0x" ++ token1) 3000);
    reflexivity.
Qed.

Lemma getUniswapV3PoolAddress_trace (tokenAddress : string) :
  fst (getUniswapV3PoolAddress w tokenAddress) =
  [Read_getPool UNISWAP_V3_FACTORY_ADDRESS
                ("0x" ++ fst (orderTokens tokenAddress WETH_ADDRESS))
                ("0x" ++ snd (orderTokens tokenAddress WETH_ADDRESS)) 3000].
Proof.
  rewrite getUniswapV3PoolAddress_run.
  now destruct (orderTokens tokenAddress WETH_ADDRESS).
Qed.

Lemma getUniswapV3PoolAddress_zero (tokenAddress : string) :
  getPool w UNISWAP_V3_FACTORY_ADDRESS
          ("0x" ++ fst (orderTokens tokenAddress WETH_ADDRESS))
          ("0x" ++ snd (orderTokens tokenAddress WETH_ADDRESS)) 3000 = Some ZERO_ADDRESS ->
  snd (getUniswapV3PoolAddress w tokenAddress) = None.
Proof.
  intros H. rewrite getUniswapV3PoolAddress_run.
  destruct (orderTokens tokenAddress WETH_ADDRESS) as [token0 token1].
  cbn [fst snd] in *. now rewrite H.
Qed.

(** A run of [getCoinData] that reaches the calculation. *)
Lemma getCoinData_run (coinAddress poolAddress : string)
      (coin : Coin.t) (rest : list Coin.t) (s0 : Slot0) (liq : Z) :
  coinsByAddress w (JsString.toLowerCase coinAddress) = Some (coin :: rest) ->
  snd (getUniswapV3PoolAddress w coinAddress) = Some poolAddress ->
  poolAddress <> "" ->
  slot0 w ("0x" ++ poolAddress) = Some s0 ->
  poolLiquidity w ("0x" ++ poolAddress) = Some liq ->
  getCoinData w coinAddress =
  (Request_GetCoinData (JsString.toLowerCase coinAddress)
     :: fst (getUniswapV3PoolAddress w coinAddress)
     ++ [Read_slot0 ("0x" ++ poolAddress); Read_liquidity ("0x" ++ poolAddress)],
   Some (computeStats (sqrtPriceX96 s0) liq (totalSupplyOf coin) (holderCountOf coin))).
Proof.
  intros Hc Hp Hne Hs Hl.
  unfold getCoinData, requestCoinData, bind, call, ret, try_or_null, all2.
  rewrite Hc.
  destruct (getUniswapV3PoolAddress w coinAddress) as [t r]. cbn [fst snd] in *.
  subst r. destruct (String.eqb_spec poolAddress "") as [E|_]; [contradiction|].
  cbn [fst snd]. rewrite Hs, Hl. cbn. reflexivity.
Qed.

(** Every run of [getCoinData] that returns a record went through the
    four reads and the calculation. *)
Lemma getCoinData_some (coinAddress : string) (t : list Event) (r : CoinStats) :
  getCoinData w coinAddress = (t, Some r) ->
  exists coin rest poolAddress s0 liq,
    coinsByAddress w (JsString.toLowerCase coinAddress) = Some (coin :: rest) /\
    snd (getUniswapV3PoolAddress w coinAddress) = Some poolAddress /\
    poolAddress <> "" /\
    slot0 w ("0x" ++ poolAddress) = Some s0 /\
    poolLiquidity w ("0x" ++ poolAddress) = Some liq /\
    r = computeStats (sqrtPriceX96 s0) liq (totalSupplyOf coin) (holderCountOf coin).
Proof.
  unfold getCoinData, requestCoinData, bind, call, ret, try_or_null, all2.
  destruct (coinsByAddress w (JsString.toLowerCase coinAddress)) as [[|coin rest]|] eqn:Hc;
    try discriminate.
  destruct (getUniswapV3PoolAddress w coinAddress) as [tp [poolAddress|]] eqn:Hp;
    try discriminate.
  destruct (String.eqb_spec poolAddress "") as [E|Hne]; [discriminate|].
  cbn [fst snd].
  destruct (slot0 w ("0x" ++ poolAddress)) as [s0|] eqn:Hs;
    destruct (poolLiquidity w ("0x" ++ poolAddress)) as [liq|] eqn:Hl;
    cbn; try discriminate.
  intros [= <- <-].
  exists coin, rest, poolAddress, s0, liq. repeat split; assumption.
Qed.

(** A pool lookup that comes back empty ends [getCoinData] with [null]. *)
Lemma getCoinData_no_pool (coinAddress : string) :
  snd (getUniswapV3PoolAddress w coinAddress) = None ->
  snd (getCoinData w coinAddress) = None.
Proof.
  intros Hp.
  unfold getCoinData, requestCoinData, bind, call, ret, try_or_null, all2.
  destruct (coinsByAddress w (JsString.toLowerCase coinAddress)) as [[|coin rest]|];
    try reflexivity.
  destruct (getUniswapV3PoolAddress w coinAddress) as [tp r]. cbn [snd] in Hp.
  subst r. reflexivity.
Qed.

End Runs.

(* ------------------------------------------------------------------ *)
(** ** The calculation stays finite *)

Module StatsFacts.

Import Number Rounding.

Ltac zle := apply Z.leb_le; vm_compute; reflexivity.

Lemma pow_2_192_eq : pow_2_192 = S754_finite false 4503599627370496 140.
Proof. vm_compute. reflexivity. Qed.

Lemma lit_1e18_eq : lit_1e18 = S754_finite false 7812500000000000 7.
Proof. vm_compute. reflexivity. Qed.

Lemma lit_0_1_eq : lit_0_1 = S754_finite false 7205759403792794 (-56).
Proof. vm_compute. reflexivity. Qed.

Lemma lit_1e18_fits : fits 60 7 lit_1e18.
Proof. rewrite lit_1e18_eq. cbn [fits]. split; zle. Qed.

Lemma lit_0_1_fits : fits (-3) (-56) lit_0_1.
Proof. rewrite lit_0_1_eq. cbn [fits]. split; zle. Qed.

(** The price of a [uint160] square root price is [+0] or a positive
    finite number below [2^193]. *)
Lemma price_fits (sqrtPrice liq : Z) (supply holderCnt : number) :
  0 <= sqrtPrice < 2 ^ 160 ->
  fits 193 140 (price (computeStats sqrtPrice liq supply holderCnt)).
Proof.
  intros [H0 H1]. cbn [computeStats price].
  apply mul_fits with (K1 := 132) (E1 := 130) (K2 := 60) (E2 := 7);
    [|apply lit_1e18_fits|lia..].
  rewrite pow_2_192_eq.
  apply div_fits with (K := 323) (E := 270) (Kq := 131) (Eq := 130);
    [|zle|zle|lia..].
  unfold square.
  assert (F : fits 161 108 (ofZ sqrtPrice))
    by (apply ofZ_fits with (k := 160); lia).
  apply mul_fits with (K1 := 161) (E1 := 108) (K2 := 161) (E2 := 108);
    [exact F|exact F|lia..].
Qed.

Lemma formatEther_fits (liq : Z) :
  0 <= liq < 2 ^ 128 -> fits 70 17 (Number_formatEther liq).
Proof.
  intros [H0 H1]. unfold Number_formatEther.
  pose proof (Digits.digits_le_of_lt_pow liq 128 ltac:(lia) H0 H1) as D.
  apply ofRatio_fits with (Kq := 69); try lia.
  change (Zdigits2 (10 ^ 18)) with 60. lia.
Qed.

Lemma liquidity_fits (sqrtPrice liq : Z) (supply holderCnt : number) :
  0 <= sqrtPrice < 2 ^ 160 -> 0 <= liq < 2 ^ 128 ->
  fits 264 211 (liquidity (computeStats sqrtPrice liq supply holderCnt)).
Proof.
  intros Hs Hl.
  pose proof (price_fits sqrtPrice liq supply holderCnt Hs) as P.
  cbn [computeStats price liquidity] in *.
  apply mul_fits with (K1 := 70) (E1 := 17) (K2 := 193) (E2 := 140);
    [apply formatEther_fits; exact Hl|exact P|lia..].
Qed.

Lemma volume24h_fits (sqrtPrice liq : Z) (supply holderCnt : number) :
  0 <= sqrtPrice < 2 ^ 160 -> 0 <= liq < 2 ^ 128 ->
  fits 262 209 (volume24h (computeStats sqrtPrice liq supply holderCnt)).
Proof.
  intros Hs Hl.
  pose proof (liquidity_fits sqrtPrice liq supply holderCnt Hs Hl) as L.
  cbn [computeStats volume24h liquidity] in *.
  apply mul_fits with (K1 := 264) (E1 := 211) (K2 := -3) (E2 := -56);
    [exact L|apply lit_0_1_fits|lia..].
Qed.

Lemma fits_not_NaN K E (x : number) : fits K E x -> x <> NaN.
Proof. intros F ->. exact F. Qed.

(** The volume is the product of the liquidity and the literal. *)
Lemma volume24h_eq (sqrtPrice liq : Z) (supply holderCnt : number) :
  volume24h (computeStats sqrtPrice liq supply holderCnt) =
  mul (liquidity (computeStats sqrtPrice liq supply holderCnt)) lit_0_1.
Proof. reflexivity. Qed.

End StatsFacts.

(* ------------------------------------------------------------------ *)
(** ** The price-one fixture *)

(** C1, as stated, fails: in the fixture world, where [sqrtPriceX96] is
    [2^96] and the total supply is [2 * 10^18], [getCoinData] returns a
    record whose price is not 1 and whose market cap is not 2. *)
Lemma fixture_price_is_not_one :
  exists r,
    snd (getCoinData Fixture.world Fixture.PULSE_ADDRESS) = Some r /\
    sqrtPriceX96 Fixture.slot0_at_price_one = 2 ^ 96 /\
    Coin.totalSupply Fixture.pulse = Some (2 * 10 ^ 18) /\
    price r <> Number.lit_1 /\
    marketCap r <> Number.lit_2 /\
    Number.strict_eq (price r) Number.lit_1 = false /\
    Number.strict_eq (marketCap r) Number.lit_2 = false.
Proof.
  eexists. split; [vm_compute; reflexivity|].
  repeat split; try reflexivity; vm_compute; discriminate.
Qed.

(** C1, amended: for [sqrtPriceX96 = 2^96] and a total supply of
    [2 * 10^18], whatever the liquidity and the holder count, the
    calculation yields the price [10^18], the ratio 1 multiplied by
    [1e18], and the market cap [2 * 10^18]; divided by [1e18] they are 1
    and 2. *)
Theorem fixture_price_is_1e18 (liq : Z) (holders : option Z) :
  let coin := {| Coin.totalSupply := Some (2 * 10 ^ 18); Coin.holderCount := holders |} in
  let r := computeStats (2 ^ 96) liq (totalSupplyOf coin) (holderCountOf coin) in
  price r = Number.lit_1e18 /\
  price r = Number.ofZ (10 ^ 18) /\
  marketCap r = Number.ofZ (2 * 10 ^ 18) /\
  Number.div (price r) Number.lit_1e18 = Number.lit_1 /\
  Number.div (marketCap r) Number.lit_1e18 = Number.lit_2.
Proof.
  cbn zeta. cbn [computeStats price marketCap].
  repeat split; vm_compute; reflexivity.
Qed.

(* ------------------------------------------------------------------ *)
(** ** Ordering the pair and locating the pool *)

(** Two spellings of one address are not ordered: the pair keeps the
    second one first, whichever it is, and neither member is below the
    other in lower case. *)
Lemma orderTokens_same_address :
  orderTokens "0xAB" "0xab" = ("0xab", "0xAB")%string /\
  orderTokens "0xab" "0xAB" = ("0xAB", "0xab")%string /\
  JsString.lt (JsString.toLowerCase "0xab") (JsString.toLowerCase "0xAB") = false.
Proof. repeat split. Qed.



(** C4: when the factory answers the zero address the locator returns
    [null]; any other answer is returned as it is; the zero address is
    never returned as a pool. *)
Theorem zero_address_is_not_found (w : World) (tokenAddress poolAddress : string) :
  getPool w UNISWAP_V3_FACTORY_ADDRESS
          ("0x" ++ fst (orderTokens tokenAddress WETH_ADDRESS))
          ("0x" ++ snd (orderTokens tokenAddress WETH_ADDRESS)) 3000 = Some poolAddress ->
  (poolAddress = ZERO_ADDRESS -> snd (getUniswapV3PoolAddress w tokenAddress) = None) /\
  (poolAddress <> ZERO_ADDRESS ->
   snd (getUniswapV3PoolAddress w tokenAddress) = Some poolAddress) /\
  snd (getUniswapV3PoolAddress w tokenAddress) <> Some ZERO_ADDRESS.
Proof.
  intros H. rewrite getUniswapV3PoolAddress_run.
  destruct (orderTokens tokenAddress WETH_ADDRESS) as [token0 token1].
  cbn [fst snd] in *. rewrite H.
  destruct (String.eqb_spec poolAddress ZERO_ADDRESS) as [E|N].
  - repeat split; intros; congruence.
  - repeat split; intros; congruence.
Qed.

Lemma zero_address_is_not_found_witness :
  snd (getUniswapV3PoolAddress Fixture.no_pool_world Fixture.PULSE_ADDRESS) = None /\
  snd (getUniswapV3PoolAddress Fixture.world Fixture.PULSE_ADDRESS) = Some Fixture.POOL_ADDRESS.
Proof.
  split.
  - exact (proj1 (zero_address_is_not_found Fixture.no_pool_world Fixture.PULSE_ADDRESS
                    ZERO_ADDRESS eq_refl) eq_refl).
  - apply (zero_address_is_not_found Fixture.world Fixture.PULSE_ADDRESS
             Fixture.POOL_ADDRESS eq_refl).
    vm_compute. discriminate.
Defined.

(* ------------------------------------------------------------------ *)
(** ** A missing pool *)

(** C2, as stated, fails: the coin of the symbol resolves in all three
    worlds; in the first the factory answers the zero address, in the
    second the [slot0] read is rejected, in the third the metadata
    request is rejected; [getCoinData] returns the same [null] and the
    route the same answer in all three, so no caller can tell a missing
    pool from a failed chain read or a failed request. *)
Lemma missing_pool_is_not_told_apart :
  snd (getCoinAddressBySymbol Fixture.no_pool_world "PULSE") = Some Fixture.PULSE_ADDRESS /\
  getPool Fixture.no_pool_world UNISWAP_V3_FACTORY_ADDRESS
          ("0x" ++ fst (orderTokens Fixture.PULSE_ADDRESS WETH_ADDRESS))
          ("0x" ++ snd (orderTokens Fixture.PULSE_ADDRESS WETH_ADDRESS)) 3000
    = Some ZERO_ADDRESS /\
  slot0 Fixture.chain_error_world ("0x" ++ Fixture.POOL_ADDRESS) = None /\
  coinsByAddress Fixture.upstream_error_world
                 (JsString.toLowerCase Fixture.PULSE_ADDRESS) = None /\
  snd (getCoinData Fixture.no_pool_world Fixture.PULSE_ADDRESS)
    = snd (getCoinData Fixture.chain_error_world Fixture.PULSE_ADDRESS) /\
  snd (getCoinData Fixture.no_pool_world Fixture.PULSE_ADDRESS)
    = snd (getCoinData Fixture.upstream_error_world Fixture.PULSE_ADDRESS) /\
  snd (imageRoute Fixture.no_pool_world "PULSE")
    = snd (imageRoute Fixture.chain_error_world "PULSE") /\
  snd (imageRoute Fixture.no_pool_world "PULSE")
    = snd (imageRoute Fixture.upstream_error_world "PULSE") /\
  ~ (exists kindOf : Response -> ErrorKind,
        kindOf (snd (imageRoute Fixture.no_pool_world "PULSE")) = PoolNotFound /\
        kindOf (snd (imageRoute Fixture.chain_error_world "PULSE")) = ChainReadError).
Proof.
  do 8 (split; [vm_compute; reflexivity|]).
  intros (kindOf & H1 & H2).
  change (snd (imageRoute Fixture.chain_error_world "PULSE"))
    with (snd (imageRoute Fixture.no_pool_world "PULSE")) in H2.
  congruence.
Qed.

(** C2, amended: when the coin of a symbol resolves and the factory
    answers the zero address for its pair, [getCoinData] returns [null],
    never a record, and the route answers 500 "Error fetching data". *)
Theorem missing_pool_is_null (w : World) (symbol coinAddress : string) :
  snd (getCoinAddressBySymbol w symbol) = Some coinAddress ->
  coinAddress <> EmptyString ->
  getPool w UNISWAP_V3_FACTORY_ADDRESS
          ("0x" ++ fst (orderTokens coinAddress WETH_ADDRESS))
          ("0x" ++ snd (orderTokens coinAddress WETH_ADDRESS)) 3000 = Some ZERO_ADDRESS ->
  snd (getCoinData w coinAddress) = None /\
  snd (imageRoute w symbol) = Text "Error fetching data" 500.
Proof.
  intros Ha Hne Hp.
  assert (N : snd (getCoinData w coinAddress) = None).
  { apply getCoinData_no_pool.
    now apply (getUniswapV3PoolAddress_zero w coinAddress). }
  split; [exact N|].
  unfold imageRoute.
  destruct (getCoinAddressBySymbol w symbol) as [t1 a]. cbn [snd] in Ha. subst a.
  destruct (String.eqb_spec coinAddress "") as [E|_]; [contradiction|].
  destruct (getCoinData w coinAddress) as [t2 d]. cbn [snd] in N. now subst d.
Qed.

Lemma missing_pool_is_null_witness :
  snd (getCoinData Fixture.no_pool_world Fixture.PULSE_ADDRESS) = None /\
  snd (imageRoute Fixture.no_pool_world "pulse") = Text "Error fetching data" 500.
Proof.
  apply (missing_pool_is_null Fixture.no_pool_world "pulse" Fixture.PULSE_ADDRESS).
  - vm_compute. reflexivity.
  - vm_compute. discriminate.
  - vm_compute. reflexivity.
Defined.

(* ------------------------------------------------------------------ *)
(** ** The record returned *)

Lemma fixture_abi_typed : abi_typed Fixture.world.
Proof.
  split.
  - intros a s [= <-]. vm_compute. split; [discriminate|reflexivity].
  - intros a l [= <-]. vm_compute. split; [discriminate|reflexivity].
Qed.

(** C5: in every record [getCoinData] returns, [volume24h] is the
    product of the literal [0.1] and the [liquidity] of the same record,
    in either order of the factors; and when the values read are of
    their ABI types the two compare equal under [===]. *)
Theorem volume_is_tenth_of_liquidity
        (w : World) (coinAddress : string) (t : list Event) (r : CoinStats) :
  getCoinData w coinAddress = (t, Some r) ->
  volume24h r = Number.mul Number.lit_0_1 (liquidity r) /\
  volume24h r = Number.mul (liquidity r) Number.lit_0_1 /\
  (abi_typed w ->
   Number.strict_eq (volume24h r) (Number.mul Number.lit_0_1 (liquidity r)) = true).
Proof.
  intros H.
  destruct (getCoinData_some w coinAddress t r H)
    as (coin & rest & poolAddress & s0 & liq & Hc & Hp & Hne & Hs & Hl & ->).
  rewrite StatsFacts.volume24h_eq.
  split; [apply Rounding.mul_comm|]. split; [reflexivity|].
  intros [T0 TL].
  rewrite (Rounding.mul_comm Number.lit_0_1).
  apply Rounding.strict_eq_refl.
  rewrite <- StatsFacts.volume24h_eq.
  apply StatsFacts.fits_not_NaN with (K := 262) (E := 209).
  apply StatsFacts.volume24h_fits; eauto.
Qed.

Lemma volume_is_tenth_of_liquidity_witness :
  exists r,
    snd (getCoinData Fixture.world Fixture.PULSE_ADDRESS) = Some r /\
    volume24h r = Number.mul Number.lit_0_1 (liquidity r) /\
    Number.strict_eq (volume24h r) (Number.mul Number.lit_0_1 (liquidity r)) = true.
Proof.
  destruct (getCoinData Fixture.world Fixture.PULSE_ADDRESS) as [t [r|]] eqn:E;
    [|vm_compute in E; discriminate E].
  exists r. split; [reflexivity|].
  destruct (volume_is_tenth_of_liquidity Fixture.world Fixture.PULSE_ADDRESS t r E)
    as (H1 & _ & H3).
  split; [exact H1|exact (H3 fixture_abi_typed)].
Defined.

(** C6: when the liquidity read of the located pool is 0, whatever
    [uint160] square root price is read, [getCoinData] returns a record,
    and its [liquidity] and [volume24h] are both 0.  A located pool is
    an address the locator returned that is not the empty string, which
    line 165 takes as no pool. *)
Theorem zero_liquidity_gives_zero
        (w : World) (coinAddress poolAddress : string)
        (coin : Coin.t) (rest : list Coin.t) (s0 : Slot0) :
  coinsByAddress w (JsString.toLowerCase coinAddress) = Some (coin :: rest) ->
  snd (getUniswapV3PoolAddress w coinAddress) = Some poolAddress ->
  poolAddress <> EmptyString ->
  slot0 w ("0x" ++ poolAddress) = Some s0 ->
  0 <= sqrtPriceX96 s0 < 2 ^ 160 ->
  poolLiquidity w ("0x" ++ poolAddress) = Some 0 ->
  exists r,
    snd (getCoinData w coinAddress) = Some r /\
    liquidity r = Number.zero /\
    volume24h r = Number.zero.
Proof.
  intros Hc Hp Hne Hs Hb Hl.
  rewrite (getCoinData_run w coinAddress poolAddress coin rest s0 0 Hc Hp Hne Hs Hl).
  eexists. split; [reflexivity|].
  pose proof (StatsFacts.price_fits (sqrtPriceX96 s0) 0
                (totalSupplyOf coin) (holderCountOf coin) Hb) as P.
  assert (L : liquidity (computeStats (sqrtPriceX96 s0) 0
                           (totalSupplyOf coin) (holderCountOf coin)) = Number.zero).
  { cbn [computeStats liquidity price] in *.
    change (Number_formatEther 0) with Number.zero.
    now apply Rounding.mul_zero_l with 193 140. }
  split; [exact L|].
  rewrite StatsFacts.volume24h_eq, L. vm_compute. reflexivity.
Qed.

Lemma zero_liquidity_gives_zero_witness :
  exists r,
    snd (getCoinData Fixture.empty_pool_world Fixture.PULSE_ADDRESS) = Some r /\
    liquidity r = Number.zero /\
    volume24h r = Number.zero.
Proof.
  apply (zero_liquidity_gives_zero Fixture.empty_pool_world Fixture.PULSE_ADDRESS
           Fixture.POOL_ADDRESS Fixture.pulse [] Fixture.slot0_at_price_one).
  - vm_compute. reflexivity.
  - vm_compute. reflexivity.
  - vm_compute. discriminate.
  - reflexivity.
  - vm_compute. split; [discriminate|reflexivity].
  - reflexivity.
Defined.

(** C7: when the total supply read is 0, whatever [uint160] square root
    price and whatever liquidity are read from the located pool, the
    record [getCoinData] returns has [marketCap] 0.  A located pool is
    an address the locator returned that is not the empty string, which
    line 165 takes as no pool. *)
Theorem zero_supply_gives_zero_market_cap
        (w : World) (coinAddress poolAddress : string)
        (coin : Coin.t) (rest : list Coin.t) (s0 : Slot0) (liq : Z) :
  coinsByAddress w (JsString.toLowerCase coinAddress) = Some (coin :: rest) ->
  Coin.totalSupply coin = Some 0 ->
  snd (getUniswapV3PoolAddress w coinAddress) = Some poolAddress ->
  poolAddress <> EmptyString ->
  slot0 w ("0x" ++ poolAddress) = Some s0 ->
  0 <= sqrtPriceX96 s0 < 2 ^ 160 ->
  poolLiquidity w ("0x" ++ poolAddress) = Some liq ->
  exists r,
    snd (getCoinData w coinAddress) = Some r /\
    marketCap r = Number.zero.
Proof.
  intros Hc Hz Hp Hne Hs Hb Hl.
  rewrite (getCoinData_run w coinAddress poolAddress coin rest s0 liq Hc Hp Hne Hs Hl).
  eexists. split; [reflexivity|].
  pose proof (StatsFacts.price_fits (sqrtPriceX96 s0) liq
                (totalSupplyOf coin) (holderCountOf coin) Hb) as P.
  cbn [computeStats marketCap price] in *.
  assert (Z0 : totalSupplyOf coin = Number.zero).
  { unfold totalSupplyOf. rewrite Hz. vm_compute. reflexivity. }
  rewrite Z0. now apply Rounding.mul_zero_r with 193 140.
Qed.

Lemma zero_supply_gives_zero_market_cap_witness :
  exists r,
    snd (getCoinData Fixture.no_supply_world Fixture.PULSE_ADDRESS) = Some r /\
    marketCap r = Number.zero.
Proof.
  apply (zero_supply_gives_zero_market_cap Fixture.no_supply_world Fixture.PULSE_ADDRESS
           Fixture.POOL_ADDRESS
           {| Coin.totalSupply := Some 0; Coin.holderCount := Some 0 |} []
           Fixture.slot0_at_price_one (5 * 10 ^ 18)).
  - vm_compute. reflexivity.
  - reflexivity.
  - vm_compute. reflexivity.
  - vm_compute. discriminate.
  - reflexivity.
  - vm_compute. split; [discriminate|reflexivity].
  - reflexivity.
Defined.

(* ------------------------------------------------------------------ *)
(** ** Case of the inputs *)



(* ------------------------------------------------------------------ *)
(** ** The record depends on the values read only *)

(** What [getCoinData] returns, from what it read. *)
Lemma getCoinData_of_reads (w : World) (coinAddress : string) :
  snd (getCoinData w coinAddress) =
  match coinMetaRead w coinAddress, poolStateRead w coinAddress with
  | Some (supply, holders), Some (sqrtPrice, liq) =>
      Some (computeStats sqrtPrice liq
              (totalSupplyOf {| Coin.totalSupply := supply; Coin.holderCount := holders |})
              (holderCountOf {| Coin.totalSupply := supply; Coin.holderCount := holders |}))
  | _, _ => None
  end.
Proof.
  unfold coinMetaRead, poolStateRead.
  unfold getCoinData, requestCoinData, bind, call, ret, try_or_null, all2.
  destruct (coinsByAddress w (JsString.toLowerCase coinAddress)) as [[|coin rest]|];
    try reflexivity.
  destruct (getUniswapV3PoolAddress w coinAddress) as [tp [poolAddress|]];
    cbn [fst snd]; [|reflexivity].
  destruct (String.eqb poolAddress ""); [reflexivity|].
  destruct (slot0 w ("0x" ++ poolAddress)) as [s0|];
    destruct (poolLiquidity w ("0x" ++ poolAddress)) as [liq|];
    destruct coin; reflexivity.
Qed.

(** C9: two runs of [getCoinData], in any two worlds and for any two
    addresses, that read the same [sqrtPriceX96] and liquidity off the
    pool they located and the same total supply and holder count return
    the same record; nothing else the worlds hold, and nothing of the
    address, reaches it.  A run that locates no pool, the empty string
    of line 165 included, reads no pool state and returns [null]. *)
Theorem stats_depend_on_reads_only (w1 w2 : World) (address1 address2 : string) :
  coinMetaRead w1 address1 = coinMetaRead w2 address2 ->
  poolStateRead w1 address1 = poolStateRead w2 address2 ->
  snd (getCoinData w1 address1) = snd (getCoinData w2 address2).
Proof.
  intros Hm Hp. rewrite !getCoinData_of_reads. now rewrite Hm, Hp.
Qed.

Lemma stats_depend_on_reads_only_witness :
  snd (getCoinData Fixture.world Fixture.PULSE_ADDRESS)
    = snd (getCoinData Fixture.other_world Fixture.OTHER_ADDRESS) /\
  fst (getCoinData Fixture.world Fixture.PULSE_ADDRESS)
    <> fst (getCoinData Fixture.other_world Fixture.OTHER_ADDRESS) /\
  snd (getCoinData Fixture.world Fixture.PULSE_ADDRESS) <> None /\
  poolStateRead Fixture.empty_answer_world Fixture.PULSE_ADDRESS = None /\
  snd (getCoinData Fixture.empty_answer_world Fixture.PULSE_ADDRESS)
    = snd (getCoinData Fixture.no_pool_world Fixture.PULSE_ADDRESS) /\
  snd (getCoinData Fixture.empty_answer_world Fixture.PULSE_ADDRESS) = None.
Proof.
  split; [|split; [|split; [|split; [|split]]]].
  - apply (stats_depend_on_reads_only Fixture.world Fixture.other_world
             Fixture.PULSE_ADDRESS Fixture.OTHER_ADDRESS).
    + vm_compute. reflexivity.
    + vm_compute. reflexivity.
  - vm_compute. discriminate.
  - vm_compute. discriminate.
  - vm_compute. reflexivity.
  - apply (stats_depend_on_reads_only Fixture.empty_answer_world Fixture.no_pool_world
             Fixture.PULSE_ADDRESS Fixture.PULSE_ADDRESS).
    + vm_compute. reflexivity.
    + vm_compute. reflexivity.
  - vm_compute. reflexivity.
Defined.

(* ------------------------------------------------------------------ *)
(** ** The prefix *)

(** The calls of a run of [getCoinData] that located a pool. *)
Lemma getCoinData_trace (w : World) (coinAddress poolAddress : string)
      (coin : Coin.t) (rest : list Coin.t) :
  coinsByAddress w (JsString.toLowerCase coinAddress) = Some (coin :: rest) ->
  snd (getUniswapV3PoolAddress w coinAddress) = Some poolAddress ->
  poolAddress <> EmptyString ->
  fst (getCoinData w coinAddress) =
  Request_GetCoinData (JsString.toLowerCase coinAddress)
    :: fst (getUniswapV3PoolAddress w coinAddress)
    ++ [Read_slot0 ("0x" ++ poolAddress); Read_liquidity ("0x" ++ poolAddress)].
Proof.
  intros Hc Hp Hne.
  unfold getCoinData, requestCoinData, bind, call, ret, try_or_null, all2.
  rewrite Hc.
  destruct (getUniswapV3PoolAddress w coinAddress) as [t r]. cbn [fst snd] in *.
  subst r. destruct (String.eqb_spec poolAddress "") as [E|_]; [contradiction|].
  cbn [fst snd].
  destruct (slot0 w ("0x" ++ poolAddress)); destruct (poolLiquidity w ("0x" ++ poolAddress));
    cbn; rewrite ?app_nil_r; reflexivity.
Qed.

(** Two strings that begin with "0x", in either order, give arguments
    that begin with "0x0x". *)
Lemma orderTokens_prefixed (tokenTail : string) :
  exists tail0 tail1,
    orderTokens ("0x" ++ tokenTail) WETH_ADDRESS = ("0x" ++ tail0, "0x" ++ tail1)%string.
Proof.
  unfold orderTokens.
  destruct (JsString.lt _ _).
  - exists tokenTail, "4200000000000000000000000000000000000006"%string. reflexivity.
  - exists "4200000000000000000000000000000000000006"%string, tokenTail. reflexivity.
Qed.

(** C10: for every token address the one [getPool] read is made with
    "0x" put before each member of the ordered pair, whatever the
    factory then answers; and once a pool is located [getCoinData] makes
    the [slot0] and liquidity reads with "0x" put before the pool
    address.  So for every token address that begins with "0x" already
    both [getPool] arguments begin with "0x0x", and for a pool address
    that begins with "0x" so do the addresses of the two pool reads. *)
Theorem reads_are_doubly_prefixed (w : World) (anyAddress tokenTail : string) :
  fst (getUniswapV3PoolAddress w anyAddress)
    = [Read_getPool UNISWAP_V3_FACTORY_ADDRESS
                    ("0x" ++ fst (orderTokens anyAddress WETH_ADDRESS))
                    ("0x" ++ snd (orderTokens anyAddress WETH_ADDRESS)) 3000] /\
  (forall poolAddress coin rest,
      coinsByAddress w (JsString.toLowerCase anyAddress) = Some (coin :: rest) ->
      snd (getUniswapV3PoolAddress w anyAddress) = Some poolAddress ->
      poolAddress <> EmptyString ->
      fst (getCoinData w anyAddress)
        = [Request_GetCoinData (JsString.toLowerCase anyAddress);
           Read_getPool UNISWAP_V3_FACTORY_ADDRESS
                        ("0x" ++ fst (orderTokens anyAddress WETH_ADDRESS))
                        ("0x" ++ snd (orderTokens anyAddress WETH_ADDRESS)) 3000;
           Read_slot0 ("0x" ++ poolAddress);
           Read_liquidity ("0x" ++ poolAddress)]) /\
  (let tokenAddress := ("0x" ++ tokenTail)%string in
   exists tail0 tail1,
     orderTokens tokenAddress WETH_ADDRESS = ("0x" ++ tail0, "0x" ++ tail1)%string /\
     fst (getUniswapV3PoolAddress w tokenAddress)
       = [Read_getPool UNISWAP_V3_FACTORY_ADDRESS
                       ("0x0x" ++ tail0) ("0x0x" ++ tail1) 3000] /\
     (forall poolTail coin rest,
         coinsByAddress w (JsString.toLowerCase tokenAddress) = Some (coin :: rest) ->
         snd (getUniswapV3PoolAddress w tokenAddress) = Some ("0x" ++ poolTail)%string ->
         fst (getCoinData w tokenAddress)
           = [Request_GetCoinData (JsString.toLowerCase tokenAddress);
              Read_getPool UNISWAP_V3_FACTORY_ADDRESS
                           ("0x0x" ++ tail0) ("0x0x" ++ tail1) 3000;
              Read_slot0 ("0x0x" ++ poolTail);
              Read_liquidity ("0x0x" ++ poolTail)])).
Proof.
  split; [apply getUniswapV3PoolAddress_trace|].
  split.
  { intros poolAddress coin rest Hc Hp Hne.
    rewrite (getCoinData_trace w anyAddress poolAddress coin rest Hc Hp Hne).
    rewrite getUniswapV3PoolAddress_trace. reflexivity. }
  intros tokenAddress.
  destruct (orderTokens_prefixed tokenTail) as (tail0 & tail1 & O).
  fold tokenAddress in O. exists tail0, tail1.
  split; [exact O|].
  assert (T : fst (getUniswapV3PoolAddress w tokenAddress)
              = [Read_getPool UNISWAP_V3_FACTORY_ADDRESS
                              ("0x0x" ++ tail0) ("0x0x" ++ tail1) 3000]).
  { rewrite getUniswapV3PoolAddress_trace, O. reflexivity. }
  split; [exact T|].
  intros poolTail coin rest Hc Hp.
  rewrite (getCoinData_trace w tokenAddress ("0x" ++ poolTail) coin rest Hc Hp
             ltac:(discriminate)), T.
  reflexivity.
Qed.

Lemma reads_are_doubly_prefixed_witness :
  fst (getCoinData Fixture.world Fixture.PULSE_ADDRESS)
  = [Request_GetCoinData "0x9a3bc1d2e4f5061728394a5b6c7d8e9f0a1b2c3d";
     Read_getPool UNISWAP_V3_FACTORY_ADDRESS
                  "0x0x4200000000000000000000000000000000000006"
                  "0x0x9A3bC1d2E4f5061728394A5b6C7d8E9f0A1B2c3D" 3000;
     Read_slot0 "0x0x1111111111111111111111111111111111111111";
     Read_liquidity "0x0x1111111111111111111111111111111111111111"] /\
  fst (getUniswapV3PoolAddress Fixture.no_pool_world Fixture.PULSE_ADDRESS)
  = [Read_getPool UNISWAP_V3_FACTORY_ADDRESS
                  "0x0x4200000000000000000000000000000000000006"
                  "0x0x9A3bC1d2E4f5061728394A5b6C7d8E9f0A1B2c3D" 3000].
Proof.
  destruct (reads_are_doubly_prefixed Fixture.world Fixture.PULSE_ADDRESS
              "9A3bC1d2E4f5061728394A5b6C7d8E9f0A1B2c3D")
    as (_ & _ & tail0 & tail1 & O & _ & T).
  destruct (reads_are_doubly_prefixed Fixture.no_pool_world Fixture.PULSE_ADDRESS
              "9A3bC1d2E4f5061728394A5b6C7d8E9f0A1B2c3D")
    as (_ & _ & tail0' & tail1' & O' & T' & _).
  vm_compute in O. injection O as <- <-.
  vm_compute in O'. injection O' as <- <-.
  split; [|exact T'].
  exact (T "1111111111111111111111111111111111111111"%string Fixture.pulse []
           ltac:(vm_compute; reflexivity) ltac:(vm_compute; reflexivity)).
Defined.

(* ------------------------------------------------------------------ *)
(** ** More on the pool locator *)

Lemma lower_lt_asym (a b : string) : JsString.lt a b = true -> JsString.lt b a = false.
Proof.
  unfold JsString.lt, String.ltb. rewrite (String.compare_antisym b a).
  destruct (String.compare a b); simpl; congruence.
Qed.

(** X1: whatever the two strings, the ordered pair holds the two of them,
    in one order or the other, and its second member is never below its
    first in lower case. *)
Theorem orderTokens_is_sorted (A B : string) :
  (orderTokens A B = (A, B) \/ orderTokens A B = (B, A)) /\
  JsString.lt (JsString.toLowerCase (snd (orderTokens A B)))
              (JsString.toLowerCase (fst (orderTokens A B))) = false.
Proof.
  unfold orderTokens.
  destruct (JsString.lt (JsString.toLowerCase A) (JsString.toLowerCase B)) eqn:L;
    cbn [fst snd].
  - split; [now left|]. now apply lower_lt_asym.
  - split; [now right|]. exact L.
Qed.

(** X2: the [getPool] read carries the token address as it is spelled:
    two different strings, even two spellings of one address, are never
    looked up with the same read. *)
Theorem getPool_read_keeps_the_spelling (w1 w2 : World) (address1 address2 : string) :
  address1 <> address2 ->
  fst (getUniswapV3PoolAddress w1 address1) <> fst (getUniswapV3PoolAddress w2 address2).
Proof.
  intros D. rewrite !getUniswapV3PoolAddress_trace. unfold orderTokens.
  destruct (JsString.lt (JsString.toLowerCase address1) _);
    destruct (JsString.lt (JsString.toLowerCase address2) _);
    cbn [fst snd]; intros H; injection H; intros; subst; congruence.
Qed.

Lemma getPool_read_keeps_the_spelling_witness :
  JsString.same_ci Fixture.PULSE_ADDRESS (JsString.toLowerCase Fixture.PULSE_ADDRESS) /\
  fst (getUniswapV3PoolAddress Fixture.world Fixture.PULSE_ADDRESS)
    <> fst (getUniswapV3PoolAddress Fixture.world
              (JsString.toLowerCase Fixture.PULSE_ADDRESS)).
Proof.
  split; [vm_compute; reflexivity|].
  apply (getPool_read_keeps_the_spelling Fixture.world Fixture.world).
  vm_compute. discriminate.
Defined.

(** A factory read that is rejected, or answers the zero address, ends
    the locator with [null] after that one read. *)
Lemma getUniswapV3PoolAddress_failure (w : World) (tokenAddress : string) :
  let token0 := fst (orderTokens tokenAddress WETH_ADDRESS) in
  let token1 := snd (orderTokens tokenAddress WETH_ADDRESS) in
  getPool w UNISWAP_V3_FACTORY_ADDRESS ("0x" ++ token0) ("0x" ++ token1) 3000 = None \/
  getPool w UNISWAP_V3_FACTORY_ADDRESS ("0x" ++ token0) ("0x" ++ token1) 3000
    = Some ZERO_ADDRESS ->
  getUniswapV3PoolAddress w tokenAddress =
  ([Read_getPool UNISWAP_V3_FACTORY_ADDRESS ("0x" ++ token0) ("0x" ++ token1) 3000], None).
Proof.
  intros token0 token1 H. rewrite getUniswapV3PoolAddress_run.
  subst token0 token1.
  destruct (orderTokens tokenAddress WETH_ADDRESS) as [t0 t1]. cbn [fst snd] in *.
  destruct H as [H|H]; rewrite H; reflexivity.
Qed.

(* ------------------------------------------------------------------ *)
(** ** More on [getCoinData] *)

(** Rounding a non-negative mantissa gives a zero, a finite number or an
    infinity of the sign asked for, never NaN. *)
Lemma round_aux_cases (sx : bool) (m e : Z) (l : location) :
  0 <= m ->
  match binary_round_aux Number.prec Number.emax sx m e l with
  | S754_zero s | S754_infinity s | S754_finite s _ _ => s = sx
  | S754_nan => False
  end.
Proof.
  intros Hm. unfold binary_round_aux.
  destruct (shr_fexp Number.prec Number.emax m e l) as [r1 e1] eqn:S1.
  destruct (Rounding.shr_fexp_spec m e l Hm r1 e1 S1) as (N1 & _ & _).
  destruct (Rounding.round_nearest_even_spec (shr_m r1) (loc_of_shr_record r1) N1)
    as (N2 & _).
  destruct (shr_fexp Number.prec Number.emax _ e1 loc_Exact) as [r3 e3] eqn:S3.
  destruct (Rounding.shr_fexp_spec _ e1 loc_Exact N2 r3 e3 S3) as (N3 & _ & _).
  destruct (shr_m r3) as [|q|q]; [reflexivity| |lia].
  destruct (e3 <=? Number.emax - Number.prec); reflexivity.
Qed.

(** [Number] of a non-negative integer is falsy only when it is [+0]. *)
Lemma ofZ_or_zero (n : Z) :
  0 <= n -> Number.or_else (Number.ofZ n) Number.lit_0 = Number.ofZ n.
Proof.
  intros Hn. unfold Number.or_else.
  destruct n as [|p|p]; [reflexivity| |lia].
  unfold Number.ofZ, binary_normalize, binary_round.
  destruct (shl_align p 0 _) as [mz ez].
  pose proof (round_aux_cases false (Z.pos mz) ez loc_Exact ltac:(lia)) as C.
  destruct (binary_round_aux _ _ _ _ _ _) as [s|s| |s m e]; cbn in *;
    subst; try reflexivity; contradiction.
Qed.

(** X3: without metadata the chain is not read: when the metadata
    request is rejected or lists no coin, [getCoinData] returns [null]
    after that one request. *)
Theorem no_metadata_no_chain_read (w : World) (coinAddress : string) :
  coinsByAddress w (JsString.toLowerCase coinAddress) = None \/
  coinsByAddress w (JsString.toLowerCase coinAddress) = Some [] ->
  getCoinData w coinAddress =
  ([Request_GetCoinData (JsString.toLowerCase coinAddress)], None).
Proof.
  intros H.
  unfold getCoinData, requestCoinData, bind, call, ret, try_or_null.
  destruct H as [H|H]; rewrite H; reflexivity.
Qed.

Lemma no_metadata_no_chain_read_witness :
  getCoinData Fixture.upstream_error_world Fixture.PULSE_ADDRESS =
  ([Request_GetCoinData (JsString.toLowerCase Fixture.PULSE_ADDRESS)], None) /\
  getCoinData Fixture.world WETH_ADDRESS =
  ([Request_GetCoinData (JsString.toLowerCase WETH_ADDRESS)], None).
Proof.
  split.
  - apply (no_metadata_no_chain_read Fixture.upstream_error_world Fixture.PULSE_ADDRESS).
    left. reflexivity.
  - apply (no_metadata_no_chain_read Fixture.world WETH_ADDRESS).
    right. vm_compute. reflexivity.
Defined.

(** X4: without a pool the pool is not read: when the factory read is
    rejected or answers the zero address, [getCoinData] returns [null]
    after the metadata request and that one read; [slot0] and the
    liquidity are never asked for. *)
Theorem no_pool_no_pool_reads
        (w : World) (coinAddress : string) (coin : Coin.t) (rest : list Coin.t) :
  let token0 := fst (orderTokens coinAddress WETH_ADDRESS) in
  let token1 := snd (orderTokens coinAddress WETH_ADDRESS) in
  coinsByAddress w (JsString.toLowerCase coinAddress) = Some (coin :: rest) ->
  getPool w UNISWAP_V3_FACTORY_ADDRESS ("0x" ++ token0) ("0x" ++ token1) 3000 = None \/
  getPool w UNISWAP_V3_FACTORY_ADDRESS ("0x" ++ token0) ("0x" ++ token1) 3000
    = Some ZERO_ADDRESS ->
  getCoinData w coinAddress =
  ([Request_GetCoinData (JsString.toLowerCase coinAddress);
    Read_getPool UNISWAP_V3_FACTORY_ADDRESS ("0x" ++ token0) ("0x" ++ token1) 3000],
   None).
Proof.
  intros token0 token1 Hc Hp.
  pose proof (getUniswapV3PoolAddress_failure w coinAddress Hp) as F.
  unfold getCoinData, requestCoinData, bind, call, ret, try_or_null.
  rewrite Hc, F. reflexivity.
Qed.

Lemma no_pool_no_pool_reads_witness :
  getCoinData Fixture.no_pool_world Fixture.PULSE_ADDRESS =
  ([Request_GetCoinData (JsString.toLowerCase Fixture.PULSE_ADDRESS);
    Read_getPool UNISWAP_V3_FACTORY_ADDRESS
                 ("0x" ++ WETH_ADDRESS) ("0x" ++ Fixture.PULSE_ADDRESS) 3000],
   None).
Proof.
  apply (no_pool_no_pool_reads Fixture.no_pool_world Fixture.PULSE_ADDRESS Fixture.pulse []).
  - vm_compute. reflexivity.
  - right. vm_compute. reflexivity.
Defined.

(** X5: once a pool is located, that is once the locator returns an
    address that is not empty, [slot0] and the liquidity are both asked
    for, whatever either answers, and [getCoinData] returns [null]
    exactly when one of the two reads is rejected; an empty address is
    taken as no pool, and [getCoinData] returns [null] after two calls. *)
Theorem both_reads_are_issued
        (w : World) (coinAddress poolAddress : string)
        (coin : Coin.t) (rest : list Coin.t) :
  coinsByAddress w (JsString.toLowerCase coinAddress) = Some (coin :: rest) ->
  snd (getUniswapV3PoolAddress w coinAddress) = Some poolAddress ->
  (poolAddress <> EmptyString ->
   fst (getCoinData w coinAddress) =
   [Request_GetCoinData (JsString.toLowerCase coinAddress);
    Read_getPool UNISWAP_V3_FACTORY_ADDRESS
                 ("0x" ++ fst (orderTokens coinAddress WETH_ADDRESS))
                 ("0x" ++ snd (orderTokens coinAddress WETH_ADDRESS)) 3000;
    Read_slot0 ("0x" ++ poolAddress);
    Read_liquidity ("0x" ++ poolAddress)] /\
   (snd (getCoinData w coinAddress) = None <->
    slot0 w ("0x" ++ poolAddress) = None \/ poolLiquidity w ("0x" ++ poolAddress) = None)) /\
  (poolAddress = EmptyString ->
   getCoinData w coinAddress =
   ([Request_GetCoinData (JsString.toLowerCase coinAddress);
     Read_getPool UNISWAP_V3_FACTORY_ADDRESS
                  ("0x" ++ fst (orderTokens coinAddress WETH_ADDRESS))
                  ("0x" ++ snd (orderTokens coinAddress WETH_ADDRESS)) 3000],
    None)).
Proof.
  intros Hc Hp. split.
  - intros Hne. split.
    + rewrite (getCoinData_trace w coinAddress poolAddress coin rest Hc Hp Hne).
      rewrite getUniswapV3PoolAddress_trace. reflexivity.
    + rewrite getCoinData_of_reads. unfold coinMetaRead, poolStateRead.
      rewrite Hc, Hp.
      destruct (String.eqb_spec poolAddress "") as [E|_]; [contradiction|].
      destruct (slot0 w ("0x" ++ poolAddress)) as [s0|];
        destruct (poolLiquidity w ("0x" ++ poolAddress)) as [liq|];
        split; intros H; try discriminate; try (destruct H; discriminate);
        try reflexivity; auto.
  - intros ->.
    pose proof (getUniswapV3PoolAddress_trace w coinAddress) as T.
    unfold getCoinData, requestCoinData, bind, call, ret, try_or_null.
    rewrite Hc.
    destruct (getUniswapV3PoolAddress w coinAddress) as [t r]. cbn [fst snd] in *.
    subst r t. reflexivity.
Qed.

Lemma both_reads_are_issued_witness :
  fst (getCoinData Fixture.chain_error_world Fixture.PULSE_ADDRESS) =
  [Request_GetCoinData (JsString.toLowerCase Fixture.PULSE_ADDRESS);
   Read_getPool UNISWAP_V3_FACTORY_ADDRESS
                ("0x" ++ WETH_ADDRESS) ("0x" ++ Fixture.PULSE_ADDRESS) 3000;
   Read_slot0 ("0x" ++ Fixture.POOL_ADDRESS);
   Read_liquidity ("0x" ++ Fixture.POOL_ADDRESS)] /\
  snd (getCoinData Fixture.chain_error_world Fixture.PULSE_ADDRESS) = None /\
  getCoinData Fixture.empty_answer_world Fixture.PULSE_ADDRESS =
  ([Request_GetCoinData (JsString.toLowerCase Fixture.PULSE_ADDRESS);
    Read_getPool UNISWAP_V3_FACTORY_ADDRESS
                 ("0x" ++ WETH_ADDRESS) ("0x" ++ Fixture.PULSE_ADDRESS) 3000],
   None).
Proof.
  destruct (both_reads_are_issued Fixture.chain_error_world Fixture.PULSE_ADDRESS
              Fixture.POOL_ADDRESS Fixture.pulse []
              ltac:(vm_compute; reflexivity) ltac:(vm_compute; reflexivity))
    as (H & _).
  destruct (H ltac:(vm_compute; discriminate)) as (T & R).
  destruct (both_reads_are_issued Fixture.empty_answer_world Fixture.PULSE_ADDRESS
              EmptyString Fixture.pulse []
              ltac:(vm_compute; reflexivity) ltac:(vm_compute; reflexivity))
    as (_ & E).
  split; [exact T|]. split; [apply R; left; reflexivity|exact (E eq_refl)].
Defined.

(** X6: the holder count of a returned record is never NaN: it is [+0]
    when the field is absent, and the number of the field when that is a
    count. *)
Theorem holderCount_is_a_number
        (w : World) (coinAddress : string) (t : list Event) (r : CoinStats) :
  getCoinData w coinAddress = (t, Some r) ->
  holderCount r <> Number.NaN /\
  (forall supply, coinMetaRead w coinAddress = Some (supply, None) ->
                  holderCount r = Number.zero) /\
  (forall supply n, coinMetaRead w coinAddress = Some (supply, Some n) -> 0 <= n ->
                    holderCount r = Number.ofZ n).
Proof.
  intros H.
  destruct (getCoinData_some w coinAddress t r H)
    as (coin & rest & poolAddress & s0 & liq & Hc & Hp & Hne & Hs & Hl & ->).
  unfold coinMetaRead. rewrite Hc.
  cbn [computeStats holderCount]. unfold holderCountOf.
  split; [|split].
  - unfold Number.or_else.
    destruct (Number_of_field (Coin.holderCount coin)) as [s|s| |s m e];
      cbn; unfold Number.NaN, Number.lit_0, Number.zero; discriminate.
  - intros supply [= _ Hn]. rewrite Hn. reflexivity.
  - intros supply n [= _ Hn] Nz. rewrite Hn. cbn [Number_of_field].
    now apply ofZ_or_zero.
Qed.

Lemma holderCount_is_a_number_witness :
  exists r,
    snd (getCoinData Fixture.world Fixture.PULSE_ADDRESS) = Some r /\
    holderCount r <> Number.NaN /\
    holderCount r = Number.ofZ 42.
Proof.
  destruct (getCoinData Fixture.world Fixture.PULSE_ADDRESS) as [t [r|]] eqn:E;
    [|vm_compute in E; discriminate E].
  exists r. split; [reflexivity|].
  destruct (holderCount_is_a_number Fixture.world Fixture.PULSE_ADDRESS t r E)
    as (H1 & _ & H3).
  split; [exact H1|].
  apply (H3 (Some (2 * 10 ^ 18)) 42); [vm_compute; reflexivity|lia].
Defined.

(** X7: a total supply that [Number] cannot read is no error: once a
    pool is located, by an address that is not empty, and both reads
    succeed, the record is returned all the same.  When the key is
    missing its market cap is NaN; when the value is [null], which
    [Number] reads as 0, its market cap is 0 for a [uint160] square root
    price. *)
Theorem missing_totalSupply_gives_NaN
        (w : World) (coinAddress poolAddress : string)
        (coin : Coin.t) (rest : list Coin.t) (s0 : Slot0) (liq : Z)
        (supplyField : Coin.field) :
  coinsByAddress w (JsString.toLowerCase coinAddress) = Some (coin :: rest) ->
  Coin.totalSupply coin = Coin.read supplyField ->
  snd (getUniswapV3PoolAddress w coinAddress) = Some poolAddress ->
  poolAddress <> EmptyString ->
  slot0 w ("0x" ++ poolAddress) = Some s0 ->
  poolLiquidity w ("0x" ++ poolAddress) = Some liq ->
  exists r,
    snd (getCoinData w coinAddress) = Some r /\
    (supplyField = Coin.Missing -> marketCap r = Number.NaN) /\
    (supplyField = Coin.Null -> 0 <= sqrtPriceX96 s0 < 2 ^ 160 ->
     marketCap r = Number.zero).
Proof.
  intros Hc Hz Hp Hne Hs Hl.
  rewrite (getCoinData_run w coinAddress poolAddress coin rest s0 liq Hc Hp Hne Hs Hl).
  eexists. split; [reflexivity|]. split.
  - intros ->. cbn [Coin.read] in Hz.
    cbn [computeStats marketCap]. unfold totalSupplyOf. rewrite Hz.
    change (Number.div (Number_of_field None) Number.lit_1e18) with Number.NaN.
    unfold Number.mul, Number.NaN.
    now destruct (SFmul _ _ (Number.div _ _) _).
  - intros -> Hb. cbn [Coin.read] in Hz.
    pose proof (StatsFacts.price_fits (sqrtPriceX96 s0) liq
                  (totalSupplyOf coin) (holderCountOf coin) Hb) as P.
    cbn [computeStats marketCap price] in *.
    assert (Z0 : totalSupplyOf coin = Number.zero).
    { unfold totalSupplyOf. rewrite Hz. vm_compute. reflexivity. }
    rewrite Z0. now apply Rounding.mul_zero_r with 193 140.
Qed.

Lemma missing_totalSupply_gives_NaN_witness :
  (exists r,
    snd (getCoinData
           {| coinsBySymbol := coinsBySymbol Fixture.world;
              coinsByAddress := fun _ =>
                Some [{| Coin.totalSupply := Coin.read Coin.Missing;
                         Coin.holderCount := Some 42 |}];
              getPool := getPool Fixture.world;
              slot0 := slot0 Fixture.world;
              poolLiquidity := poolLiquidity Fixture.world |}
           Fixture.PULSE_ADDRESS) = Some r /\
    marketCap r = Number.NaN) /\
  (exists r,
    snd (getCoinData
           {| coinsBySymbol := coinsBySymbol Fixture.world;
              coinsByAddress := fun _ =>
                Some [{| Coin.totalSupply := Coin.read Coin.Null;
                         Coin.holderCount := Coin.read Coin.Null |}];
              getPool := getPool Fixture.world;
              slot0 := slot0 Fixture.world;
              poolLiquidity := poolLiquidity Fixture.world |}
           Fixture.PULSE_ADDRESS) = Some r /\
    marketCap r = Number.zero /\ holderCount r = Number.zero).
Proof.
  split.
  - destruct (missing_totalSupply_gives_NaN
                {| coinsBySymbol := coinsBySymbol Fixture.world;
                   coinsByAddress := fun _ =>
                     Some [{| Coin.totalSupply := Coin.read Coin.Missing;
                              Coin.holderCount := Some 42 |}];
                   getPool := getPool Fixture.world;
                   slot0 := slot0 Fixture.world;
                   poolLiquidity := poolLiquidity Fixture.world |}
                Fixture.PULSE_ADDRESS Fixture.POOL_ADDRESS
                {| Coin.totalSupply := Coin.read Coin.Missing; Coin.holderCount := Some 42 |} []
                Fixture.slot0_at_price_one (5 * 10 ^ 18) Coin.Missing
                eq_refl eq_refl ltac:(vm_compute; reflexivity)
                ltac:(vm_compute; discriminate) eq_refl eq_refl)
      as (r & R & M & _).
    exists r. split; [exact R|exact (M eq_refl)].
  - destruct (missing_totalSupply_gives_NaN
                {| coinsBySymbol := coinsBySymbol Fixture.world;
                   coinsByAddress := fun _ =>
                     Some [{| Coin.totalSupply := Coin.read Coin.Null;
                              Coin.holderCount := Coin.read Coin.Null |}];
                   getPool := getPool Fixture.world;
                   slot0 := slot0 Fixture.world;
                   poolLiquidity := poolLiquidity Fixture.world |}
                Fixture.PULSE_ADDRESS Fixture.POOL_ADDRESS
                {| Coin.totalSupply := Coin.read Coin.Null;
                   Coin.holderCount := Coin.read Coin.Null |} []
                Fixture.slot0_at_price_one (5 * 10 ^ 18) Coin.Null
                eq_refl eq_refl ltac:(vm_compute; reflexivity)
                ltac:(vm_compute; discriminate) eq_refl eq_refl)
      as (r & R & _ & M).
    exists r. split; [exact R|]. split.
    + apply (M eq_refl). vm_compute. split; [discriminate|reflexivity].
    + vm_compute in R. injection R as <-. reflexivity.
Defined.

Lemma fits_nonneg_finite K E (x : Number.number) :
  Number.fits K E x -> is_nonneg_finite x = true.
Proof.
  destruct x as [[]|[]| |[] m e]; cbn; intros H; try contradiction; reflexivity.
Qed.

Lemma totalSupplyOf_fits (coin : Coin.t) (supply : Z) :
  Coin.totalSupply coin = Some supply -> 0 <= supply < 2 ^ 256 ->
  Number.fits 199 197 (totalSupplyOf coin).
Proof.
  intros H [H0 H1]. unfold totalSupplyOf. rewrite H. cbn [Number_of_field].
  rewrite StatsFacts.lit_1e18_eq.
  apply Rounding.div_fits with (K := 257) (E := 204) (Kq := 198) (Eq := 197);
    try lia; try StatsFacts.zle.
  apply Rounding.ofZ_fits with (k := 256); lia.
Qed.

(** X8: when the values read are of their ABI types and the total supply
    is a [uint256], the price, the liquidity, the volume and the market
    cap of the record returned are all finite and not negative: no NaN,
    no infinity, no negative zero. *)
Theorem stats_are_finite
        (w : World) (coinAddress : string) (t : list Event) (r : CoinStats)
        (supply : Z) (holders : option Z) :
  abi_typed w ->
  getCoinData w coinAddress = (t, Some r) ->
  coinMetaRead w coinAddress = Some (Some supply, holders) ->
  0 <= supply < 2 ^ 256 ->
  is_nonneg_finite (price r) = true /\
  is_nonneg_finite (liquidity r) = true /\
  is_nonneg_finite (volume24h r) = true /\
  is_nonneg_finite (marketCap r) = true.
Proof.
  intros [T0 TL] H Hm Hb.
  destruct (getCoinData_some w coinAddress t r H)
    as (coin & rest & poolAddress & s0 & liq & Hc & Hp & Hne & Hs & Hl & ->).
  unfold coinMetaRead in Hm. rewrite Hc in Hm. injection Hm as Hsup _.
  pose proof (T0 _ _ Hs) as Bs. pose proof (TL _ _ Hl) as Bl.
  pose proof (StatsFacts.price_fits (sqrtPriceX96 s0) liq
                (totalSupplyOf coin) (holderCountOf coin) Bs) as P.
  repeat split.
  - now apply fits_nonneg_finite with 193 140.
  - apply fits_nonneg_finite with 264 211. now apply StatsFacts.liquidity_fits.
  - apply fits_nonneg_finite with 262 209. now apply StatsFacts.volume24h_fits.
  - apply fits_nonneg_finite with 393 340.
    cbn [computeStats marketCap price] in *.
    apply Rounding.mul_fits with (K1 := 193) (E1 := 140) (K2 := 199) (E2 := 197);
      [exact P|now apply totalSupplyOf_fits with supply|lia..].
Qed.

Lemma stats_are_finite_witness :
  exists r,
    snd (getCoinData Fixture.world Fixture.PULSE_ADDRESS) = Some r /\
    is_nonneg_finite (price r) = true /\
    is_nonneg_finite (liquidity r) = true /\
    is_nonneg_finite (volume24h r) = true /\
    is_nonneg_finite (marketCap r) = true.
Proof.
  destruct (getCoinData Fixture.world Fixture.PULSE_ADDRESS) as [t [r|]] eqn:E;
    [|vm_compute in E; discriminate E].
  exists r. split; [reflexivity|].
  apply (stats_are_finite Fixture.world Fixture.PULSE_ADDRESS t r
           (2 * 10 ^ 18) (Some 42) fixture_abi_typed E).
  - vm_compute. reflexivity.
  - vm_compute. split; [discriminate|reflexivity].
Defined.

(* ------------------------------------------------------------------ *)
(** ** More on the [/image/:symbol] route *)

Lemma getCoinAddressBySymbol_run (w : World) (symbol : string) :
  getCoinAddressBySymbol w symbol =
  ([Request_GetCoinBySymbol (JsString.toUpperCase symbol)],
   match coinsBySymbol w (JsString.toUpperCase symbol) with
   | Some (address :: _) => Some address
   | _ => None
   end).
Proof.
  unfold getCoinAddressBySymbol, requestCoinBySymbol, bind, call, ret, try_or_null.
  now destruct (coinsBySymbol w (JsString.toUpperCase symbol)) as [[|a l]|].
Qed.

Lemma getCoinData_calls (w : World) (coinAddress : string) :
  (List.length (fst (getCoinData w coinAddress)) <= 4)%nat.
Proof.
  unfold getCoinData, requestCoinData, bind, call, ret, try_or_null, all2.
  destruct (coinsByAddress w (JsString.toLowerCase coinAddress)) as [[|coin rest]|];
    [cbn; lia| |cbn; lia].
  rewrite getUniswapV3PoolAddress_run.
  destruct (orderTokens coinAddress WETH_ADDRESS) as [t0 t1].
  destruct (getPool w _ _ _ _) as [p|]; [|cbn; lia].
  destruct (String.eqb p ZERO_ADDRESS); [cbn; lia|].
  destruct (String.eqb p ""); [cbn; lia|].
  destruct (slot0 w ("0x" ++ p)); destruct (poolLiquidity w ("0x" ++ p)); cbn; lia.
Qed.

(** X9: a symbol request that is rejected is answered like an unknown
    symbol: when the request fails, lists no coin, or lists a coin with
    an empty address, the route answers 404 "Coin not found" after that
    one request. *)
Theorem unresolved_symbol_is_not_found (w : World) (symbol : string) :
  coinsBySymbol w (JsString.toUpperCase symbol) = None \/
  coinsBySymbol w (JsString.toUpperCase symbol) = Some [] \/
  (exists rest, coinsBySymbol w (JsString.toUpperCase symbol) = Some (EmptyString :: rest)) ->
  imageRoute w symbol =
  ([Request_GetCoinBySymbol (JsString.toUpperCase symbol)], Text "Coin not found" 404).
Proof.
  intros H. unfold imageRoute. rewrite getCoinAddressBySymbol_run.
  destruct H as [H|[H|(rest & H)]]; rewrite H; reflexivity.
Qed.

Lemma unresolved_symbol_is_not_found_witness :
  imageRoute Fixture.world "nope" =
  ([Request_GetCoinBySymbol (JsString.units_of "NOPE")], Text "Coin not found" 404) /\
  imageRoute {| coinsBySymbol := fun _ => None;
                coinsByAddress := coinsByAddress Fixture.world;
                getPool := getPool Fixture.world;
                slot0 := slot0 Fixture.world;
                poolLiquidity := poolLiquidity Fixture.world |} "pulse" =
  ([Request_GetCoinBySymbol (JsString.units_of "PULSE")], Text "Coin not found" 404).
Proof.
  split.
  - apply (unresolved_symbol_is_not_found Fixture.world "nope").
    right. left. reflexivity.
  - apply (unresolved_symbol_is_not_found _ "pulse").
    left. reflexivity.
Defined.

Lemma imageRoute_calls (w : World) (symbol : string) :
  exists t,
    fst (imageRoute w symbol) = Request_GetCoinBySymbol (JsString.toUpperCase symbol) :: t /\
    (List.length t <= 4)%nat.
Proof.
  unfold imageRoute. rewrite getCoinAddressBySymbol_run.
  destruct (coinsBySymbol w (JsString.toUpperCase symbol)) as [[|a l]|];
    try (exists []; split; [reflexivity|cbn; lia]).
  destruct (String.eqb a ""); [exists []; split; [reflexivity|cbn; lia]|].
  pose proof (getCoinData_calls w a) as L.
  destruct (getCoinData w a) as [t2 [d|]]; exists t2; split; try reflexivity; exact L.
Qed.

(* ------------------------------------------------------------------ *)
(** ** Facts about trimming and escaping *)

Module JsTextFacts.

Import JsText.

Lemma all_chars_app (p : ascii -> bool) (a b : string) :
  all_chars p (a ++ b) = all_chars p a && all_chars p b.
Proof.
  induction a as [|x a IH]; [reflexivity|].
  cbn. rewrite IH. now rewrite andb_assoc.
Qed.

Lemma count_char_app (c : ascii) (a b : string) :
  count_char c (a ++ b) = (count_char c a + count_char c b)%nat.
Proof.
  induction a as [|x a IH]; [reflexivity|].
  cbn. destruct (Ascii.eqb c x); rewrite IH; reflexivity.
Qed.

Lemma count_char_absent (p : ascii -> bool) (c : ascii) (s : string) :
  all_chars p s = true -> p c = false -> count_char c s = O.
Proof.
  intros A N. induction s as [|x s IH]; [reflexivity|].
  cbn in *. apply andb_true_iff in A. destruct A as [Px A].
  destruct (Ascii.eqb_spec c x) as [->|_]; [congruence|now apply IH].
Qed.

Lemma encode_char_alphabet (c : ascii) : all_chars in_alphabet (encode_char c) = true.
Proof. destruct c as [[] [] [] [] [] [] [] []]; reflexivity. Qed.

Lemma encodeURIComponent_alphabet (s : string) :
  all_chars in_alphabet (encodeURIComponent s) = true.
Proof.
  induction s as [|c s IH]; [reflexivity|].
  cbn [encodeURIComponent]. now rewrite all_chars_app, encode_char_alphabet, IH.
Qed.

Lemma decode_encode_char (c : ascii) (rest : string) :
  decodeURIComponent (encode_char c ++ rest) = push c (decodeURIComponent rest).
Proof. destruct c as [[] [] [] [] [] [] [] []]; reflexivity. Qed.

(** Trimming. *)
Lemma trimStart_blank (s : string) : trimStart s = EmptyString <-> all_chars is_space s = true.
Proof.
  induction s as [|c s IH]; [now split|].
  cbn. destruct (is_space c); cbn; [exact IH|]. split; discriminate.
Qed.

Lemma trimStart_start (s : string) : starts_with_space (trimStart s) = false.
Proof.
  induction s as [|c s IH]; [reflexivity|].
  cbn. destruct (is_space c) eqn:E; [exact IH|]. cbn. exact E.
Qed.

Lemma trimEnd_blank (s : string) : trimEnd s = EmptyString <-> all_chars is_space s = true.
Proof.
  induction s as [|c s IH]; [now split|].
  cbn. destruct (trimEnd s) as [|x r] eqn:T.
  - destruct (is_space c); cbn; [|split; discriminate].
    split; intros _; [now apply IH|reflexivity].
  - split; [discriminate|]. intros H. apply andb_true_iff in H.
    destruct H as [_ H]. apply IH in H. discriminate.
Qed.

Lemma trimEnd_start (s : string) :
  starts_with_space s = false -> starts_with_space (trimEnd s) = false.
Proof.
  destruct s as [|c s]; [reflexivity|].
  cbn. intros E. destruct (trimEnd s); [rewrite E|]; cbn; exact E.
Qed.

Lemma trimEnd_end (s : string) : ends_with_space (trimEnd s) = false.
Proof.
  induction s as [|c s IH]; [reflexivity|].
  cbn [trimEnd]. destruct (trimEnd s) as [|x r] eqn:T.
  - destruct (is_space c) eqn:E; cbn; [reflexivity|exact E].
  - cbn [ends_with_space] in *. exact IH.
Qed.

Lemma trim_blank (s : string) : trim s = EmptyString <-> all_chars is_space s = true.
Proof.
  unfold trim. rewrite trimEnd_blank.
  induction s as [|c s IH]; [now split|].
  cbn. destruct (is_space c) eqn:E; cbn; [exact IH|].
  rewrite E. cbn. now split.
Qed.

Lemma trim_ends (s : string) :
  starts_with_space (trim s) = false /\ ends_with_space (trim s) = false.
Proof.
  unfold trim. split; [apply trimEnd_start, trimStart_start|apply trimEnd_end].
Qed.

Lemma decode_without_percent (s : string) :
  count_char "%" s = O -> decodeURIComponent s = Decoded_string s.
Proof.
  induction s as [|c s IH]; [reflexivity|].
  cbn [count_char decodeURIComponent].
  rewrite Ascii.eqb_sym.
  destruct (Ascii.eqb c "%"); [discriminate|].
  intros H. cbn [negb]. now rewrite (IH H).
Qed.

Lemma continuation_percent (p h : ascii) : continuation p h "%" = None.
Proof.
  unfold continuation, octet.
  destruct (Ascii.eqb p "%"); [|reflexivity].
  change (hex_value "%") with (@None N).
  now destruct (hex_value h).
Qed.

Lemma push_code_point_error (v : N) : push_code_point v URIError = URIError.
Proof. unfold push_code_point. now destruct (v <? 256)%N. Qed.

(** A percent sign at the end has no two digits after it. *)
Lemma decode_ends_with_percent_upto (n : nat) (s : string) :
  (String.length s <= n)%nat -> decodeURIComponent (s ++ "%") = URIError.
Proof.
  revert s. induction n as [|n IH]; intros s L.
  - destruct s; [reflexivity|cbn in L; lia].
  - destruct s as [|c s]; [reflexivity|].
    cbn [String.length] in L.
    change (String c s ++ "%")%string with (String c (s ++ "%")).
    cbn [decodeURIComponent].
    destruct (Ascii.eqb c "%"); cbn [negb].
    2:{ rewrite IH by lia. reflexivity. }
    destruct s as [|h [|l r1]]; [reflexivity| |].
    { cbn [append]. cbv beta iota. unfold octet.
      change (hex_value "%") with (@None N).
      now destruct (hex_value h). }
    cbn [String.length] in L.
    change (String h (String l r1) ++ "%")%string with (String h (String l (r1 ++ "%"))).
    cbv beta iota.
    destruct (octet h l) as [b|]; [|reflexivity].
    destruct (b <? 128)%N; [rewrite IH by lia; reflexivity|].
    destruct (b <? 192)%N; [reflexivity|].
    destruct (b <? 224)%N.
    { destruct r1 as [|p1 [|h1 [|l1 r2]]]; try reflexivity.
      - cbn [append]. cbv beta iota. now rewrite continuation_percent.
      - cbn [String.length] in L.
        change (String p1 (String h1 (String l1 r2)) ++ "%")%string
          with (String p1 (String h1 (String l1 (r2 ++ "%")))).
        cbv beta iota.
        destruct (continuation p1 h1 l1); [|reflexivity].
        rewrite IH by lia. unfold utf8_2.
        now destruct (_ <? 128)%N; [|apply push_code_point_error]. }
    destruct (b <? 240)%N.
    { destruct r1 as [|p1 [|h1 [|l1 [|p2 [|h2 [|l2 r3]]]]]]; try reflexivity.
      - cbn [append]. cbv beta iota. rewrite continuation_percent.
        now destruct (continuation p1 h1 l1).
      - cbn [String.length] in L.
        change (String p1 (String h1 (String l1 (String p2 (String h2 (String l2 r3))))) ++ "%")%string
          with (String p1 (String h1 (String l1 (String p2 (String h2 (String l2 (r3 ++ "%"))))))).
        cbv beta iota.
        destruct (continuation p1 h1 l1); [|reflexivity].
        destruct (continuation p2 h2 l2); [|reflexivity].
        rewrite IH by lia. unfold utf8_3.
        now destruct (_ || _); [|apply push_code_point_error]. }
    destruct (b <? 248)%N; [|reflexivity].
    destruct r1 as [|p1 [|h1 [|l1 [|p2 [|h2 [|l2 [|p3 [|h3 [|l3 r4]]]]]]]]]; try reflexivity.
    + cbn [append]. cbv beta iota. rewrite continuation_percent.
      destruct (continuation p1 h1 l1); [|reflexivity].
      now destruct (continuation p2 h2 l2).
    + cbn [String.length] in L.
      change (String p1 (String h1 (String l1 (String p2 (String h2 (String l2
                (String p3 (String h3 (String l3 r4)))))))) ++ "%")%string
        with (String p1 (String h1 (String l1 (String p2 (String h2 (String l2
                (String p3 (String h3 (String l3 (r4 ++ "%")))))))))).
      cbv beta iota.
      destruct (continuation p1 h1 l1); [|reflexivity].
      destruct (continuation p2 h2 l2); [|reflexivity].
      destruct (continuation p3 h3 l3); [|reflexivity].
      rewrite IH by lia. unfold utf8_4.
      now destruct (_ || _); [|apply push_code_point_error].
Qed.

Lemma decode_ends_with_percent (s : string) : decodeURIComponent (s ++ "%") = URIError.
Proof. apply (decode_ends_with_percent_upto (String.length s)). lia. Qed.

(** The escape of a code unit below 128 decodes to it. *)
Lemma decode_escape (c : ascii) :
  (N_of_ascii c < 128)%N ->
  decodeURIComponent (percent (N_of_ascii c)) = Decoded_string (String c EmptyString).
Proof.
  destruct c as [[] [] [] [] [] [] [] []]; intros H; try reflexivity;
    vm_compute in H; discriminate H.
Qed.

End JsTextFacts.

(** X11: what [encodeURIComponent] writes holds only letters, digits,
    [- _ . ! ~ * ' ( )] and the percent sign: no quote, no angle
    bracket, no ampersand, no slash, no white space. *)
Theorem encodeURIComponent_is_url_safe (s : string) :
  JsText.all_chars JsText.in_alphabet (JsText.encodeURIComponent s) = true /\
  (forall c, JsText.in_alphabet c = false ->
             JsText.count_char c (JsText.encodeURIComponent s) = O).
Proof.
  split; [apply JsTextFacts.encodeURIComponent_alphabet|].
  intros c N. apply JsTextFacts.count_char_absent with JsText.in_alphabet; [|exact N].
  apply JsTextFacts.encodeURIComponent_alphabet.
Qed.

Lemma encodeURIComponent_is_url_safe_witness :
  JsText.count_char "034" (JsText.encodeURIComponent (dq ++ "><script>")) = O /\
  JsText.count_char "<" (JsText.encodeURIComponent (dq ++ "><script>")) = O.
Proof.
  destruct (encodeURIComponent_is_url_safe (dq ++ "><script>")) as (_ & H).
  split; apply H; reflexivity.
Defined.

Lemma decode_encode (s : string) :
  JsText.decodeURIComponent (JsText.encodeURIComponent s) = JsText.Decoded_string s.
Proof.
  induction s as [|c s IH]; [reflexivity|].
  cbn [JsText.encodeURIComponent].
  now rewrite JsTextFacts.decode_encode_char, IH.
Qed.

(* ------------------------------------------------------------------ *)
(** ** The handler of [/image/:symbol] *)

(** X10: the handler throws the URIError of line 101 before any call, or
    it makes at most five external calls, the first of them the request
    for the decoded symbol in upper case. *)
Theorem imageHandler_makes_at_most_five_calls (w : World) (param : string) :
  (JsText.decodeURIComponent param = JsText.URIError /\
   imageHandler w param = Image_thrown) \/
  (JsText.decodeURIComponent param = JsText.Decoded_beyond /\
   imageHandler w param = Image_beyond) \/
  (exists symbol t answer,
      JsText.decodeURIComponent param = JsText.Decoded_string symbol /\
      imageHandler w param
        = Image_run (Request_GetCoinBySymbol (JsString.toUpperCase symbol) :: t, answer) /\
      (List.length t <= 4)%nat).
Proof.
  unfold imageHandler.
  destruct (JsText.decodeURIComponent param) as [symbol| |];
    [right; right|right; left; now split|left; now split].
  destruct (imageRoute_calls w symbol) as (t & T & L).
  destruct (imageRoute w symbol) as [t1 answer]. cbn [fst] in T. subst t1.
  exists symbol, t, answer. repeat split. exact L.
Qed.

(** X12: what line 101 does to the value of the parameter.  It undoes
    the escapes of line 85: given the [encodeURIComponent] of a symbol
    the handler goes on with that symbol.  It leaves alone what holds no
    percent sign: given such a string the handler goes on with it.  In
    neither case does it throw.  A percent sign that the parameter still
    holds is read as an escape whatever it stood for: a parameter that
    ends in a percent sign makes the handler throw before any call, and
    the escape of a character is looked up as that character. *)
Theorem decode_encode_round_trip (w : World) (symbol param : string) :
  imageHandler w (JsText.encodeURIComponent symbol) = Image_run (imageRoute w symbol) /\
  (JsText.count_char "%" param = O ->
   imageHandler w param = Image_run (imageRoute w param)) /\
  imageHandler w (param ++ "%") = Image_thrown /\
  (forall c, (N_of_ascii c < 128)%N ->
             imageHandler w (JsText.percent (N_of_ascii c))
               = Image_run (imageRoute w (String c EmptyString))).
Proof.
  unfold imageHandler. split; [|split; [|split]].
  - now rewrite decode_encode.
  - intros H. now rewrite (JsTextFacts.decode_without_percent param H).
  - now rewrite JsTextFacts.decode_ends_with_percent.
  - intros c H. now rewrite (JsTextFacts.decode_escape c H).
Qed.

Lemma decode_encode_round_trip_witness :
  imageHandler Fixture.world "pu%20lse%C3%A9"%string =
  Image_run (imageRoute Fixture.world ("pu lse" ++ String "233" "")%string) /\
  imageHandler Fixture.world "pulse"%string
  = Image_run (imageRoute Fixture.world "pulse"%string) /\
  imageHandler Fixture.world "pulse%"%string = Image_thrown /\
  imageHandler Fixture.world "%41"%string = Image_run (imageRoute Fixture.world "A"%string).
Proof.
  destruct (decode_encode_round_trip Fixture.world
              ("pu lse" ++ String "233" "")%string "pulse"%string)
    as (H1 & H2 & H3 & H4).
  split; [exact H1|]. split; [exact (H2 eq_refl)|]. split; [exact H3|].
  exact (H4 "A"%char eq_refl).
Defined.

(* ------------------------------------------------------------------ *)
(** ** The [/stats] route *)

Section StatsRoute.

Variable w : World.

Local Open Scope string_scope.

(** The route on a body that carries text. *)
Lemma statsRoute_of_text (url text : string) :
  statsRoute w url (body_of_text text) =
  if String.eqb (JsText.trim text) ""
  then ([], Html (errorFrame url "No symbol provided"%string) 400)
  else
    ([Request_GetCoinBySymbol (JsString.toUpperCase (JsText.trim text))],
     match snd (getCoinAddressBySymbol w (JsText.trim text)) with
     | None =>
         Html (errorFrame url ("Coin " ++ dq ++ JsText.trim text ++ dq ++ " not found")) 404
     | Some coinAddress =>
         if String.eqb coinAddress ""
         then Html (errorFrame url
                      ("Coin " ++ dq ++ JsText.trim text ++ dq ++ " not found")) 404
         else Html (statsFrame url
                      (url ++ "/image/" ++ JsText.encodeURIComponent (JsText.trim text))) 200
     end).
Proof.
  unfold statsRoute, body_of_text, inputSymbol. cbn [untrustedData inputText].
  destruct (String.eqb (JsText.trim text) ""); [reflexivity|].
  rewrite getCoinAddressBySymbol_run. cbn [snd].
  destruct (coinsBySymbol w _) as [[|a l]|]; try reflexivity.
  destruct (String.eqb a ""); reflexivity.
Qed.

Lemma is_blank_spec (body : Body) :
  is_blank body = false ->
  exists text, body = body_of_text text /\ JsText.trim text <> "".
Proof.
  destruct body as [[[[text|]]|]]; cbn; try discriminate.
  intros H. exists text. split; [reflexivity|].
  intros T. apply JsTextFacts.trim_blank in T. congruence.
Qed.

Lemma errorFrame_count (c : ascii) (url m1 m2 : string) :
  JsText.in_alphabet c = false ->
  JsText.count_char c (errorFrame url m1) = JsText.count_char c (errorFrame url m2).
Proof.
  intros N. unfold errorFrame.
  rewrite !JsTextFacts.count_char_app.
  rewrite (JsTextFacts.count_char_absent JsText.in_alphabet c (JsText.encodeURIComponent m1)),
          (JsTextFacts.count_char_absent JsText.in_alphabet c (JsText.encodeURIComponent m2));
    auto using JsTextFacts.encodeURIComponent_alphabet.
Qed.

Lemma statsFrame_count (c : ascii) (url s1 s2 : string) :
  JsText.in_alphabet c = false ->
  JsText.count_char c (statsFrame url (url ++ "/image/" ++ JsText.encodeURIComponent s1))
  = JsText.count_char c (statsFrame url (url ++ "/image/" ++ JsText.encodeURIComponent s2)).
Proof.
  intros N. unfold statsFrame.
  rewrite !JsTextFacts.count_char_app.
  rewrite (JsTextFacts.count_char_absent JsText.in_alphabet c (JsText.encodeURIComponent s1)),
          (JsTextFacts.count_char_absent JsText.in_alphabet c (JsText.encodeURIComponent s2));
    auto using JsTextFacts.encodeURIComponent_alphabet.
Qed.

Lemma statsRoute_blank (url : string) (body : Body) :
  is_blank body = true ->
  statsRoute w url body = ([], Html (errorFrame url "No symbol provided"%string) 400).
Proof.
  unfold statsRoute, inputSymbol, is_blank.
  destruct body as [[[[text|]]|]]; cbn [untrustedData inputText]; try reflexivity.
  intros B. apply JsTextFacts.trim_blank in B. now rewrite B.
Qed.

End StatsRoute.

(** X13: the handler throws, before any call, when the body is not JSON
    or is [null], and when the input text is a value other than a string
    and [null]; a body it can read without input text, or with text of
    white space only, is answered 400 with the frame of "No symbol
    provided", and nothing is requested; any other body it can read
    causes exactly one request and is not answered 400. *)
Theorem blank_input_is_rejected (w : World) (url : string) :
  statsHandler w url None = None /\
  statsHandler w url (Some JNull) = None /\
  (forall get get' v,
      get "untrustedData"%string = Some (JObject get') ->
      get' "inputText"%string = Some v ->
      match v with JNull | JString _ => False | _ => True end ->
      statsHandler w url (Some (JObject get)) = None) /\
  (forall json body,
      typed_body json = Some body -> is_blank body = true ->
      statsHandler w url (Some json)
        = Some ([], Html (errorFrame url "No symbol provided"%string) 400)) /\
  (forall json body,
      typed_body json = Some body -> is_blank body = false ->
      exists run,
        statsHandler w url (Some json) = Some run /\
        List.length (fst run) = 1%nat /\
        html_status (snd run) <> 400).
Proof.
  split; [reflexivity|]. split; [reflexivity|]. split; [|split].
  - intros get get' v Hu Hi Hv. unfold statsHandler, typed_body, member.
    rewrite Hu, Hi. destruct v; try reflexivity; contradiction.
  - intros json body Ht B. unfold statsHandler. rewrite Ht.
    now rewrite (statsRoute_blank w url body B).
  - intros json body Ht B. unfold statsHandler. rewrite Ht.
    eexists. split; [reflexivity|].
    destruct (is_blank_spec body B) as (text & -> & T).
    rewrite statsRoute_of_text.
    destruct (String.eqb_spec (JsText.trim text) ""%string) as [E|_]; [contradiction|].
    split; [reflexivity|]. cbn [snd].
    destruct (snd (getCoinAddressBySymbol w (JsText.trim text))) as [a|];
      [destruct (String.eqb a ""%string)|]; cbn; discriminate.
Qed.

Lemma blank_input_is_rejected_witness :
  statsHandler Fixture.world "https://frames.example/stats"%string
    (Some (JObject (fun k =>
       if String.eqb k "untrustedData"%string
       then Some (JObject (fun k' =>
              if String.eqb k' "inputText"%string then Some (JNumber Number.lit_1) else None))
       else None)))
  = None /\
  statsHandler Fixture.world "https://frames.example/stats"%string
    (Some (JObject (fun k =>
       if String.eqb k "untrustedData"%string
       then Some (JObject (fun k' =>
              if String.eqb k' "inputText"%string then Some (JString "  "%string) else None))
       else None)))
  = Some ([], Html (errorFrame "https://frames.example/stats"%string "No symbol provided"%string) 400) /\
  statsHandler Fixture.world "https://frames.example/stats"%string (Some (JObject (fun _ => None)))
  = Some ([], Html (errorFrame "https://frames.example/stats"%string "No symbol provided"%string) 400).
Proof.
  destruct (blank_input_is_rejected Fixture.world "https://frames.example/stats"%string)
    as (_ & _ & H3 & H4 & _).
  split; [|split].
  - eapply H3; [reflexivity|reflexivity|exact I].
  - eapply H4; reflexivity.
  - eapply H4; reflexivity.
Defined.

(** X14: the handler never reads the chain and never asks for metadata:
    when it does not throw, its only call is the symbol request, made
    with the upper case of the trimmed input text, which is not empty;
    and the trimmed text neither begins nor ends with white space. *)
Theorem statsHandler_only_looks_the_symbol_up
        (w : World) (url : string) (body : option Json) (run : list Event * HtmlResponse) :
  statsHandler w url body = Some run ->
  fst run = [] \/
  exists json text,
    body = Some json /\
    typed_body json = Some (body_of_text text) /\
    fst run = [Request_GetCoinBySymbol (JsString.toUpperCase (JsText.trim text))] /\
    JsString.toUpperCase (JsText.trim text) <> [] /\
    JsText.starts_with_space (JsText.trim text) = false /\
    JsText.ends_with_space (JsText.trim text) = false.
Proof.
  unfold statsHandler. destruct body as [json|]; [|discriminate].
  destruct (typed_body json) as [body|] eqn:Ht; [|discriminate].
  intros [= <-].
  destruct (is_blank body) eqn:B.
  - left. now rewrite (statsRoute_blank w url body B).
  - right. destruct (is_blank_spec body B) as (text & -> & T).
    exists json, text. split; [reflexivity|]. split; [exact Ht|].
    rewrite statsRoute_of_text.
    destruct (String.eqb_spec (JsText.trim text) ""%string) as [E|_]; [contradiction|].
    split; [reflexivity|].
    split; [now rewrite JsStringFacts.upper_empty|].
    apply JsTextFacts.trim_ends.
Qed.

Lemma statsHandler_only_looks_the_symbol_up_witness :
  statsHandler Fixture.world "https://frames.example/stats"%string
    (Some (JObject (fun k =>
       if String.eqb k "untrustedData"%string
       then Some (JObject (fun k' =>
              if String.eqb k' "inputText"%string then Some (JString " pulse "%string) else None))
       else None)))
  = Some (statsRoute Fixture.world "https://frames.example/stats"%string
            (body_of_text " pulse "%string)) /\
  fst (statsRoute Fixture.world "https://frames.example/stats"%string (body_of_text " pulse "%string))
  = [Request_GetCoinBySymbol (JsString.units_of "PULSE"%string)].
Proof.
  split; [reflexivity|].
  destruct (statsHandler_only_looks_the_symbol_up Fixture.world "https://frames.example/stats"%string
              (Some (JObject (fun k =>
                 if String.eqb k "untrustedData"%string
                 then Some (JObject (fun k' =>
                        if String.eqb k' "inputText"%string then Some (JString " pulse "%string) else None))
                 else None)))
              (statsRoute Fixture.world "https://frames.example/stats"%string
                 (body_of_text " pulse "%string))
              eq_refl)
    as [E|(json & text & Ej & Ht & T & _)].
  - vm_compute in E. discriminate E.
  - injection Ej as <-. cbv [typed_body member body_of_text] in Ht. cbn in Ht.
    injection Ht as <-. exact T.
Defined.

(** X15: the two routes agree on what is not found: for input text that
    does not trim to nothing, [/stats] answers 404 exactly when
    [/image/:symbol] answers 404 for the trimmed text, and 200
    otherwise. *)
Theorem routes_agree_on_not_found (w : World) (url text : string) :
  JsText.trim text <> EmptyString ->
  (html_status (snd (statsRoute w url (body_of_text text))) = 404 /\
   snd (imageRoute w (JsText.trim text)) = Text "Coin not found" 404) \/
  (html_status (snd (statsRoute w url (body_of_text text))) = 200 /\
   snd (imageRoute w (JsText.trim text)) <> Text "Coin not found" 404).
Proof.
  intros T. rewrite statsRoute_of_text.
  destruct (String.eqb_spec (JsText.trim text) "") as [E|_]; [contradiction|].
  unfold imageRoute.
  destruct (getCoinAddressBySymbol w (JsText.trim text)) as [t1 [a|]]; cbn [snd];
    [|left; split; reflexivity].
  destruct (String.eqb a ""); [left; split; reflexivity|].
  right. split; [reflexivity|].
  destruct (getCoinData w a) as [t2 [d|]]; cbn [snd]; discriminate.
Qed.

Lemma routes_agree_on_not_found_witness :
  html_status (snd (statsRoute Fixture.no_pool_world "https://frames.example/stats"
                      (body_of_text " pulse "))) = 200 /\
  snd (imageRoute Fixture.no_pool_world "pulse") = Text "Error fetching data" 500 /\
  html_status (snd (statsRoute Fixture.world "https://frames.example/stats"
                      (body_of_text "nope"))) = 404.
Proof.
  destruct (routes_agree_on_not_found Fixture.no_pool_world "https://frames.example/stats"
              " pulse " ltac:(vm_compute; discriminate)) as [(_ & H)|(H & _)];
    [vm_compute in H; discriminate H|].
  destruct (routes_agree_on_not_found Fixture.world "https://frames.example/stats"
              "nope" ltac:(vm_compute; discriminate)) as [(H' & _)|(_ & H')];
    [|exfalso; apply H'; vm_compute; reflexivity].
  split; [exact H|]. split; [vm_compute; reflexivity|exact H'].
Defined.

(** X16: the text of the user reaches the frame only through
    [encodeURIComponent]: how often a character that is neither
    unreserved nor the percent sign, such as a quote or an angle
    bracket, occurs in the document depends on the request URL and the
    status alone, not on the text. *)
Theorem user_text_is_escaped
        (w1 w2 : World) (url : string) (body1 body2 : Body) (c : ascii) :
  JsText.in_alphabet c = false ->
  html_status (snd (statsRoute w1 url body1)) = html_status (snd (statsRoute w2 url body2)) ->
  JsText.count_char c (html_body (snd (statsRoute w1 url body1)))
  = JsText.count_char c (html_body (snd (statsRoute w2 url body2))).
Proof.
  intros N.
  assert (F : forall w body,
             (exists m, snd (statsRoute w url body) = Html (errorFrame url m) 400) \/
             (exists m, snd (statsRoute w url body) = Html (errorFrame url m) 404) \/
             (exists s, snd (statsRoute w url body)
                        = Html (statsFrame url
                                  (url ++ "/image/" ++ JsText.encodeURIComponent s)) 200)).
  { intros w body. destruct (is_blank body) eqn:B.
    - left. eexists. now rewrite (statsRoute_blank w url body B).
    - right. destruct (is_blank_spec body B) as (text & -> & T).
      rewrite statsRoute_of_text.
      destruct (String.eqb_spec (JsText.trim text) "") as [E|_]; [contradiction|].
      cbn [snd].
      destruct (snd (getCoinAddressBySymbol w (JsText.trim text))) as [a|];
        [destruct (String.eqb a "")|]; [left|right|left]; eexists; reflexivity. }
  destruct (F w1 body1) as [(m1 & ->)|[(m1 & ->)|(s1 & ->)]];
    destruct (F w2 body2) as [(m2 & ->)|[(m2 & ->)|(s2 & ->)]];
    cbn [html_status html_body]; intros S;
    [apply errorFrame_count|discriminate S|discriminate S
    |discriminate S|apply errorFrame_count|discriminate S
    |discriminate S|discriminate S|apply statsFrame_count];
    exact N.
Qed.

Lemma user_text_is_escaped_witness :
  JsText.count_char "034"
    (html_body (snd (statsRoute Fixture.world "https://frames.example/stats"
                       (body_of_text "x"))))
  = JsText.count_char "034"
      (html_body (snd (statsRoute Fixture.world "https://frames.example/stats"
                         (body_of_text (dq ++ "><script>"))))).
Proof.
  apply (user_text_is_escaped Fixture.world Fixture.world "https://frames.example/stats"
           (body_of_text "x") (body_of_text (dq ++ "><script>")) "034").
  - reflexivity.
  - vm_compute. reflexivity.
Defined.

(** X17: the status of [/stats] depends on the input text only up to
    surrounding white space and letter case. *)
Theorem stats_status_ignores_case_and_space (w : World) (url1 url2 text1 text2 : string) :
  JsString.toUpperCase (JsText.trim text1) = JsString.toUpperCase (JsText.trim text2) ->
  html_status (snd (statsRoute w url1 (body_of_text text1)))
  = html_status (snd (statsRoute w url2 (body_of_text text2))).
Proof.
  intros U. rewrite !statsRoute_of_text.
  assert (E : String.eqb (JsText.trim text1) "" = String.eqb (JsText.trim text2) "").
  { destruct (String.eqb_spec (JsText.trim text1) "") as [E1|N1];
      destruct (String.eqb_spec (JsText.trim text2) "") as [E2|N2]; try reflexivity;
      exfalso.
    - rewrite E1 in U. symmetry in U.
      change (JsString.toUpperCase "") with (@nil N) in U.
      apply (proj1 (JsStringFacts.upper_empty _)) in U. exact (N2 U).
    - rewrite E2 in U.
      change (JsString.toUpperCase "") with (@nil N) in U.
      apply (proj1 (JsStringFacts.upper_empty _)) in U. exact (N1 U). }
  rewrite <- E. destruct (String.eqb (JsText.trim text1) ""); [reflexivity|].
  cbn [snd]. rewrite !getCoinAddressBySymbol_run, <- U. cbn [snd].
  destruct (coinsBySymbol w _) as [[|a l]|]; try reflexivity.
  destruct (String.eqb a ""); reflexivity.
Qed.

Lemma stats_status_ignores_case_and_space_witness :
  html_status (snd (statsRoute Fixture.world "https://frames.example/stats"
                      (body_of_text "  Pulse ")))
  = html_status (snd (statsRoute Fixture.world "https://frames.example/stats"
                        (body_of_text "pULSE"))).
Proof.
  apply (stats_status_ignores_case_and_space Fixture.world).
  vm_compute. reflexivity.
Defined.
